(** * Credit application service: schemas, identity resolution and ledger

    A shallow embedding of [schemas.py], [models.py], [auth.py] and
    [main.py].  Python [str] values are [string]s whose characters are the
    code points 0..255; Python [int]s are [Z]; [Decimal] is a coefficient
    and a power of ten; a [Float] column holds an IEEE binary64 value
    ([spec_float] at precision 53).  The relational store is a pair of
    tables (row lists) threaded through the handlers by a state-and-error
    monad; JSON objects are finite maps from field names to values. *)

From Stdlib Require Import ZArith QArith List Ascii String Bool Lia SpecFloat.
From stdpp Require Import base option list strings gmap.

Local Open Scope string_scope.
Local Open Scope Z_scope.

(** ** Python strings *)

Module Py.

(** [str.isdigit] on the code points 0..255: the decimal digits and the
    three superscript digits of Latin-1 (U+00B2, U+00B3, U+00B9). *)
Definition isdigit (c : ascii) : bool :=
  let n := N_of_ascii c in
  ((48 <=? n) && (n <=? 57) || (n =? 178) || (n =? 179) || (n =? 185))%N.

(** [str.isspace] on the code points 0..255. *)
Definition isspace (c : ascii) : bool :=
  let n := N_of_ascii c in
  ((9 <=? n) && (n <=? 13) || (28 <=? n) && (n <=? 32)
   || (n =? 133) || (n =? 160))%N.

Definition chars (s : string) : list ascii := list_ascii_of_string s.
Definition str (l : list ascii) : string := string_of_list_ascii l.

(** [len(s)] *)
Definition len (s : string) : Z := Z.of_nat (String.length s).

(** ["".join(filter(p, s))] *)
Definition join_filter (p : ascii -> bool) (s : string) : string :=
  str (List.filter p (chars s)).

(** [s.strip()] *)
Fixpoint lstrip (l : list ascii) : list ascii :=
  match l with
  | c :: l' => if isspace c then lstrip l' else l
  | [] => []
  end.

Definition strip (s : string) : string :=
  str (rev (lstrip (rev (lstrip (chars s))))).

(** [c in s] for a one-character needle *)
Definition contains (c : ascii) (s : string) : bool :=
  existsb (Ascii.eqb c) (chars s).

(** truthiness of a [str] *)
Definition truthy (s : string) : bool := negb (String.eqb s "").

End Py.

(** ** Validation outcomes

    A pydantic validator either returns the (possibly rewritten) value or
    raises [ValueError]; the transport layer turns the latter into a
    validation error before any handler runs.  The human-readable messages
    carried by the exceptions are left out. *)

Inductive Validated (A : Type) : Type :=
| Valid (a : A)
| ValueError.
Arguments Valid {A} a.
Arguments ValueError {A}.

(** ** [decimal.Decimal] and the binary64 values of a [Float] column *)

Module Decimal.

(** A finite decimal [coefficient * 10 ^ exponent].  The special values
    (NaN, infinities) never reach the code below: the [Decimal] field of
    the request schema refuses them. *)
Record t : Type := mk { coefficient : Z; exponent : Z }.

(** The number a decimal denotes. *)
Definition value (d : t) : Q :=
  (inject_Z (coefficient d) * Qpower (inject_Z 10) (exponent d))%Q.

(** Comparisons of [Decimal]s are comparisons of the denoted numbers. *)
Definition compare (a b : t) : comparison := (value a ?= value b)%Q.
Definition gt (a b : t) : bool :=
  match compare a b with Gt => true | _ => false end.
Definition le (a b : t) : bool :=
  match compare a b with Gt => false | _ => true end.

(** [Decimal("100000")], [Decimal(0)] *)
Definition of_Z (n : Z) : t := mk n 0.

(** [float(d)]: the binary64 value nearest to [d], ties to even. *)
Definition to_float (d : t) : spec_float :=
  if 0 <=? exponent d then
    binary_normalize 53 1024 (coefficient d * 10 ^ exponent d) 0 false
  else
    match coefficient d, 10 ^ (- exponent d) with
    | Zpos m, Zpos p =>
        SFdiv 53 1024 (S754_finite false m 0) (S754_finite false p 0)
    | Zneg m, Zpos p =>
        SFdiv 53 1024 (S754_finite true m 0) (S754_finite false p 0)
    | _, _ => S754_zero false
    end.

End Decimal.

Module Float.

(** The number a finite binary64 value denotes ([None] for NaN and the
    infinities). *)
Definition value (f : spec_float) : option Q :=
  match f with
  | S754_zero _ => Some 0%Q
  | S754_finite s m e =>
      Some (inject_Z (cond_Zopp s (Zpos m)) * Qpower (inject_Z 2) e)%Q
  | _ => None
  end.

(** [f] denotes exactly the number [q]. *)
Definition denotes (f : spec_float) (q : Q) : Prop :=
  exists r, value f = Some r /\ (r == q)%Q.

End Float.

(** ** Request and response schemas ([schemas.py]) *)

(** JSON scalars of a response body. *)
Inductive JSON : Type :=
| JStr (s : string)
| JInt (n : Z).

Module schemas.

(** A [Field] length constraint [min_length <= len(v) <= max_length]. *)
Definition length_between (lo : Z) (hi : option Z) (v : string) : bool :=
  (lo <=? Py.len v) &&
  match hi with Some h => Py.len v <=? h | None => true end.

(** [ApplicationBase.validate_full_name] *)
Definition validate_full_name (v : string) : Validated string :=
  if negb (Py.truthy v) || negb (Py.truthy (Py.strip v)) then ValueError
  else if Py.len (Py.strip v) <? 2 then ValueError
  else Valid (Py.strip v).

(** [ApplicationBase.validate_amount]; the inner [ValueError] is caught
    and raised again, so both paths end in [ValueError]. *)
Definition validate_amount (v : Decimal.t) : Validated Decimal.t :=
  if Decimal.le v (Decimal.of_Z 0) then ValueError else Valid v.

(** [ApplicationBase.validate_phone] *)
Definition validate_phone (v : string) : Validated string :=
  if negb (Py.truthy v) then ValueError
  else
    let clean_phone := Py.join_filter Py.isdigit v in
    if Py.len clean_phone <? 10 then ValueError
    else if Py.len clean_phone >? 15 then ValueError
    else Valid ("+" +:+ clean_phone).

(** [UserBase.validate_username] *)
Definition validate_username (v : string) : Validated string :=
  if negb (Py.truthy v) then ValueError
  else if Py.contains " " v then ValueError
  else Valid v.

(** [UserCreate.validate_password] *)
Definition validate_password (v : string) : Validated string :=
  if negb (Py.truthy v) then ValueError
  else if Py.len v <? 6 then ValueError
  else Valid v.

(** A field: its [Field] constraint first, then its validator. *)
Definition field {A} (constraint : A -> bool) (validator : A -> Validated A)
    (v : A) : Validated A :=
  if constraint v then validator v else ValueError.

Definition bind {A B} (x : Validated A) (k : A -> Validated B) : Validated B :=
  match x with Valid a => k a | ValueError => ValueError end.

Module ApplicationCreate.
Record t : Type := mk { full_name : string; amount : Decimal.t; phone : string }.

(** Validation of a request body. *)
Definition model_validate (full_name0 : string) (amount0 : Decimal.t)
    (phone0 : string) : Validated t :=
  bind (field (length_between 2 (Some 100)) validate_full_name full_name0) (fun n =>
  bind (field (fun a => Decimal.gt a (Decimal.of_Z 0)) validate_amount amount0) (fun a =>
  bind (field (fun _ => true) validate_phone phone0) (fun p =>
  Valid (mk n a p)))).
End ApplicationCreate.

(** The closed enumeration of [ApplicationUpdateStatus.status]. *)
Inductive StatusLiteral : Type := new | approved | rejected.

Definition status_str (s : StatusLiteral) : string :=
  match s with new => "new" | approved => "approved" | rejected => "rejected" end.

Module ApplicationUpdateStatus.
Record t : Type := mk { status : StatusLiteral }.
End ApplicationUpdateStatus.

Module UserCreate.
Record t : Type := mk { username : string; password : string }.

Definition model_validate (username0 password0 : string) : Validated t :=
  bind (field (length_between 3 (Some 50)) validate_username username0) (fun u =>
  bind (field (length_between 6 None) validate_password password0) (fun p =>
  Valid (mk u p))).
End UserCreate.

(** The response model of [POST /register]: the fields of [UserBase]
    followed by [id] and [hashed_password]. *)
Module User.
Record t : Type := mk { username : string; id : Z; hashed_password : string }.

(** The JSON object sent to the caller. *)
Definition model_dump (u : t) : gmap string JSON :=
  <["username" := JStr (username u)]>
    (<["id" := JInt (id u)]>
      (<["hashed_password" := JStr (hashed_password u)]> ∅)).
End User.

End schemas.

(** ** Table rows ([models.py]) *)

Module models.

Module User.
Record t : Type := mk { id : Z; username : string; hashed_password : string }.
End User.

(** [amount] is a [Float] column, [status] a [String] column and
    [created_at] a UTC instant in seconds. *)
Module Application.
Record t : Type := mk {
  id : Z;
  full_name : string;
  amount : spec_float;
  phone : string;
  status : string;
  created_at : Z;
  user_id : Z
}.

(** [application.status = s] on a loaded row *)
Definition set_status (s : string) (a : t) : t :=
  mk (id a) (full_name a) (amount a) (phone a) s (created_at a) (user_id a).
End Application.

End models.

(** ** The relational store behind a [Session] *)

Module db.

Record t : Type := mk {
  users : list models.User.t;
  applications : list models.Application.t
}.

(** The integer primary key given to a new row: one more than the
    largest key of the table. *)
Definition next_id (ids : list Z) : Z := 1 + fold_right Z.max 0 ids.

(** [query(User).filter(User.username == name).first()] *)
Definition user_by_username (name : string) (s : t) : option models.User.t :=
  List.find (fun u => String.eqb (models.User.username u) name) (users s).

(** The integers an INTEGER column holds and a query parameter can carry:
    the signed 64-bit ones. *)
Definition int64 (i : Z) : bool := (- 2 ^ 63 <=? i) && (i <=? 2 ^ 63 - 1).

(** The first row of the application table with the key [i]. *)
Definition application_by_id (i : Z) (s : t) : option models.Application.t :=
  List.find (fun a => models.Application.id a =? i) (applications s).

(** [query(Application).all()] *)
Definition all_applications (s : t) : list models.Application.t := applications s.

(** [query(Application).filter(Application.user_id == uid).all()] *)
Definition applications_of (uid : Z) (s : t) : list models.Application.t :=
  List.filter (fun a => models.Application.user_id a =? uid) (applications s).

End db.

(** ** Exceptions and the handler monad *)

(** The [detail] messages of the service, one constructor per message. *)
Inductive Detail : Type :=
| could_not_validate_credentials
| admin_name_forbidden
| username_taken
| bad_credentials
| application_not_found
| no_view_permission
| admin_only
| internal_error.

(** What a handler can raise: an [HTTPException] or another exception: a
    constraint violation reported by the store, an integer too large to
    be bound as a query parameter, a password the hasher refuses. *)
Inductive Exc : Type :=
| HTTPException (status_code : Z) (detail : Detail)
| IntegrityError
| OverflowError
| NullPasswordError.


(** A handler reads and writes the store and returns or raises. *)
Definition M (A : Type) : Type := db.t -> db.t * (Exc + A).

Definition raise {A} (e : Exc) : M A := fun s => (s, inl e).
Definition query {A} (q : db.t -> A) : M A := fun s => (s, inr (q s)).

#[global] Instance M_ret : MRet M := fun A a s => (s, inr a).
#[global] Instance M_bind : MBind M := fun A B k m s =>
  match m s with
  | (s', inr a) => k a s'
  | (s', inl e) => (s', inl e)
  end.

(** [if c: raise e] *)
Definition raise_if (c : bool) (e : Exc) : M unit :=
  if c then raise e else mret tt.

(** [db.add(row); db.commit(); db.refresh(row)] for a user: the row gets
    its primary key; a second row with the same [username] violates the
    unique index. *)
Definition add_user (username hashed_password : string) : M models.User.t :=
  fun s =>
    match db.user_by_username username s with
    | Some _ => (s, inl IntegrityError)
    | None =>
        let row := models.User.mk (db.next_id (map models.User.id (db.users s)))
                     username hashed_password in
        (db.mk (db.users s ++ [row]) (db.applications s), inr row)
    end.

(** The same for an application; [created_at] takes the column default,
    the current UTC time, and [amount] is bound as a float. *)
Definition add_application (now : Z) (full_name : string) (amount : Decimal.t)
    (phone status : string) (user_id : Z) : M models.Application.t :=
  fun s =>
    let row := models.Application.mk
                 (db.next_id (map models.Application.id (db.applications s)))
                 full_name (Decimal.to_float amount) phone status now user_id in
    (db.mk (db.users s) (db.applications s ++ [row]), inr row).

(** [query(Application).filter(Application.id == i).first()] as a handler
    runs it.  A key outside the 64-bit range cannot be bound and raises
    [OverflowError]; the keys of stored rows are made by the store and
    fit, so such a key is the key of no row. *)
Definition first_application_by_id (i : Z) : M (option models.Application.t) :=
  fun s =>
    match db.application_by_id i s with
    | Some a => (s, inr (Some a))
    | None => if db.int64 i then (s, inr None) else (s, inl OverflowError)
    end.

(** [application.status = st; db.commit(); db.refresh(application)]: an
    [UPDATE ... SET status = st WHERE id = i]. *)
Definition commit_status (i : Z) (st : string) : M unit :=
  fun s =>
    (db.mk (db.users s)
       (map (fun a => if models.Application.id a =? i
                      then models.Application.set_status st a else a)
            (db.applications s)),
     inr tt).

(** [try: body / except HTTPException: raise / except Exception as e:
    db.rollback(); raise HTTPException(500)].  [reraise_http] says whether
    the handler has the first [except] clause, [rollback] whether the
    second one calls [db.rollback()]. *)
Definition try_except {A} (reraise_http rollback : bool) (body : M A) : M A :=
  fun s =>
    match body s with
    | (s', inr a) => (s', inr a)
    | (s', inl e) =>
        match e, reraise_http with
        | HTTPException c d, true => (s', inl (HTTPException c d))
        | _, _ => (if rollback then s else s',
                   inl (HTTPException 500 internal_error))
        end
    end.

(** ** Identity resolution ([auth.py]) *)

Module auth.

Definition SECRET_KEY : string :=
  "your-super-secret-key-here-should-be-very-long-and-random".

(** The claims of a token payload that the service writes and reads:
    [payload.get("sub")] and the expiry instant. *)
Record Claims : Type := mkClaims { sub : option string; exp : option Z }.

(** The reasons for which [jwt.decode] raises [JWTError]. *)
Inductive JWTError : Type :=
| signature_mismatch
| malformed_encoding
| expired_signature.

Definition credentials_exception : Exc :=
  HTTPException 401 could_not_validate_credentials.

Section Environment.

(** [jwt.decode(token, key, algorithms=[ALGORITHM])] at the instant
    [now], and [pwd_context.hash] with the salt it draws. *)
Variable jwt_decode : string -> string -> Z -> JWTError + Claims.
Variable pwd_context_hash : string -> string.

Definition get_password_hash (password : string) : string :=
  pwd_context_hash password.

Definition get_current_user (now : Z) (credentials : string)
    : M models.User.t :=
  match jwt_decode credentials SECRET_KEY now with
  | inl _ => raise credentials_exception
  | inr payload =>
      match sub payload with
      | None => raise credentials_exception
      | Some username =>
          user ← query (db.user_by_username username);
          match user with
          | None => raise credentials_exception
          | Some u => mret u
          end
      end
  end.

End Environment.

Section Credentials.

(** [pwd_context.verify] and [jwt.encode(claims, key, algorithm=ALGORITHM)]. *)
Variable pwd_context_verify : string -> string -> bool.
Variable jwt_encode : Claims -> string -> string.

Definition verify_password (plain_password hashed_password : string) : bool :=
  pwd_context_verify plain_password hashed_password.

(** [authenticate_user]: [None] stands for the [False] it returns. *)
Definition authenticate_user (username password : string)
    : M (option models.User.t) :=
  user ← query (db.user_by_username username);
  match user with
  | None => mret None
  | Some u =>
      if negb (verify_password password (models.User.hashed_password u))
      then mret None
      else mret (Some u)
  end.

(** A [timedelta] and a [datetime] count microseconds (the latter since
    the epoch); [timedelta(minutes=m)]. *)
Definition timedelta_minutes (m : Z) : Z := m * 60 * 1000000.

(** The whole second of an instant: what [jwt.encode] writes for a
    [datetime] claim. *)
Definition timegm (instant : Z) : Z := instant / 1000000.

(** [create_access_token]; [utcnow] is the clock it reads, a [timedelta]
    is true unless it is zero, and the [exp] claim of the token is in
    whole seconds. *)
Definition create_access_token (utcnow : Z) (data : Claims)
    (expires_delta : option Z) : string :=
  let expire :=
    match expires_delta with
    | Some d => if negb (d =? 0) then utcnow + d
                else utcnow + timedelta_minutes 15
    | None => utcnow + timedelta_minutes 15
    end in
  let to_encode := mkClaims (sub data) (Some (timegm expire)) in
  jwt_encode to_encode SECRET_KEY.

End Credentials.

End auth.

(** ** The handlers ([main.py]) *)

Module main.

Import models.

Section Environment.

Variable pwd_context_hash : string -> string.

(** [get_password_hash(password)] inside a handler: the hasher refuses a
    password that contains a NUL character and raises. *)
Definition hash_or_raise (password : string) : M string :=
  if Py.contains "000"%char password then raise NullPasswordError
  else mret (auth.get_password_hash pwd_context_hash password).

(** [POST /register] *)
Definition register_user (user : schemas.UserCreate.t) : M User.t :=
  try_except true true (
    raise_if (String.eqb (schemas.UserCreate.username user) "admin")
      (HTTPException 400 admin_name_forbidden);;
    existing_user ← query (db.user_by_username (schemas.UserCreate.username user));
    raise_if (bool_decide (is_Some existing_user))
      (HTTPException 400 username_taken);;
    hashed_password ← hash_or_raise (schemas.UserCreate.password user);
    add_user (schemas.UserCreate.username user) hashed_password).

End Environment.

(** [response_model=schemas.User]: the returned row is read attribute by
    attribute into [schemas.User] (so [username] is validated as a
    [UserBase] field) and dumped as the response body. *)
Definition User_response (u : User.t) : Validated (gmap string JSON) :=
  schemas.bind
    (schemas.field (schemas.length_between 3 (Some 50)) schemas.validate_username
       (User.username u))
    (fun name =>
       Valid (schemas.User.model_dump
                (schemas.User.mk name (User.id u) (User.hashed_password u)))).

(** [POST /applications]; [now] is the clock read by the [created_at]
    default. *)
Definition create_application (now : Z) (application : schemas.ApplicationCreate.t)
    (current_user : User.t) : M Application.t :=
  try_except false true (
    let status_result :=
      if Decimal.gt (schemas.ApplicationCreate.amount application)
                    (Decimal.of_Z 100000)
      then "rejected" else "new" in
    add_application now
      (schemas.ApplicationCreate.full_name application)
      (schemas.ApplicationCreate.amount application)
      (schemas.ApplicationCreate.phone application)
      status_result
      (User.id current_user)).

(** [GET /applications] *)
Definition get_applications (current_user : User.t) : M (list Application.t) :=
  try_except false false (
    if String.eqb (User.username current_user) "admin"
    then query db.all_applications
    else query (db.applications_of (User.id current_user))).

(** [GET /applications/{application_id}] *)
Definition get_application (application_id : Z) (current_user : User.t)
    : M Application.t :=
  try_except true false (
    application ← first_application_by_id application_id;
    match application with
    | None => raise (HTTPException 404 application_not_found)
    | Some a =>
        raise_if (negb (String.eqb (User.username current_user) "admin")
                  && negb (Application.user_id a =? User.id current_user))
          (HTTPException 403 no_view_permission);;
        mret a
    end).

(** [PUT /applications/{application_id}/status]; the row returned is the
    loaded one after the assignment, which [db.refresh] reads back. *)
Definition update_application_status (application_id : Z)
    (status_update : schemas.ApplicationUpdateStatus.t) (current_user : User.t)
    : M Application.t :=
  try_except true true (
    raise_if (negb (String.eqb (User.username current_user) "admin"))
      (HTTPException 403 admin_only);;
    application ← first_application_by_id application_id;
    match application with
    | None => raise (HTTPException 404 application_not_found)
    | Some a =>
        let st := schemas.status_str (schemas.ApplicationUpdateStatus.status status_update) in
        commit_status (Application.id a) st;;
        mret (Application.set_status st a)
    end).

Section Sessions.

Variable pwd_context_hash : string -> string.
Variable pwd_context_verify : string -> string -> bool.
Variable jwt_encode : auth.Claims -> string -> string.

(** The startup hook: [except Exception] only prints, the hook never
    raises. *)
Definition create_admin_user : M unit :=
  fun s =>
    match (admin ← query (db.user_by_username "admin");
           match admin with
           | None =>
               add_user "admin" (auth.get_password_hash pwd_context_hash "admin123");;
               mret tt
           | Some _ => mret tt
           end) s with
    | (s', inr _) => (s', inr tt)
    | (s', inl _) => (s', inr tt)
    end.

(** [POST /token]; the body is the dict the handler returns, and [now]
    is the second in which the clock is read: with a duration of whole
    minutes the microseconds of the clock do not reach the token. *)
Definition login_for_access_token (now : Z) (username password : string)
    : M (gmap string JSON) :=
  try_except true false (
    user ← auth.authenticate_user pwd_context_verify username password;
    match user with
    | None => raise (HTTPException 401 bad_credentials)
    | Some u =>
        let access_token_expires := auth.timedelta_minutes 30 in
        let access_token :=
          auth.create_access_token jwt_encode (now * 1000000)
            (auth.mkClaims (Some (User.username u)) None)
            (Some access_token_expires) in
        mret (<["access_token" := JStr access_token]>
                (<["token_type" := JStr "bearer"]> ∅))
    end).

End Sessions.

End main.

(** ** Vocabulary of the statements and sample data *)

Import models.

(** The digits of an input, as [str.isdigit] sees them, and their number. *)
Definition digits_of (v : string) : list ascii := List.filter Py.isdigit (Py.chars v).
Definition digit_count (v : string) : Z := Z.of_nat (length (digits_of v)).

(** The role test of the handlers. *)
Definition is_admin (u : User.t) : bool := String.eqb (User.username u) "admin".



(** A stand-in for the salted digest, for the sample runs. *)
Definition sample_hash (password : string) : string := "$2b$12$" +:+ password.

(** A decoder that knows one token, issued to ["alice"] and expiring at
    the instant 1800, for the sample runs. *)
Definition sample_decode (token key : string) (now : Z) : auth.JWTError + auth.Claims :=
  if String.eqb token "alice.token" && String.eqb key auth.SECRET_KEY then
    if 1800 <? now then inl auth.expired_signature
    else inr (auth.mkClaims (Some "alice") (Some 1800))
  else inl auth.malformed_encoding.

Definition admin_row : User.t := User.mk 1 "admin" (sample_hash "admin123").
Definition alice_row : User.t := User.mk 2 "alice" (sample_hash "secret1").
Definition bob_row : User.t := User.mk 3 "bob" (sample_hash "secret2").

Definition app1 : Application.t :=
  Application.mk 1 "Ivan Ivanov" (Decimal.to_float (Decimal.mk 5000000 (-2)))
    "+79991234567" "new" 1000 2.
Definition app2 : Application.t :=
  Application.mk 2 "Petr Petrov" (Decimal.to_float (Decimal.mk 15000000 (-2)))
    "+79997654321" "rejected" 1100 3.

Definition empty_store : db.t := db.mk [] [].
Definition sample_store : db.t :=
  db.mk [admin_row; alice_row; bob_row] [app1; app2].

(** [Decimal("100000.000000000000001")] *)
Definition just_over_threshold : Decimal.t := Decimal.mk 100000000000000000001 (-15).

(** A text that does not begin with whitespace, as a list of characters,
    and the characters [strip] keeps. *)
Definition starts_clean (l : list ascii) : Prop :=
  match l with c :: _ => Py.isspace c = false | [] => True end.
Definition stripped (l : list ascii) : list ascii :=
  rev (Py.lstrip (rev (Py.lstrip l))).

(** The closed set of status strings. *)
Definition status_ok (st : string) : Prop :=
  st = "new" \/ st = "approved" \/ st = "rejected".

(** Store invariants: the unique index on [username], the primary keys,
    and statuses within the closed set. *)
Definition usernames_unique (s : db.t) : Prop :=
  List.NoDup (map User.username (db.users s)).
Definition application_ids_unique (s : db.t) : Prop :=
  List.NoDup (map Application.id (db.applications s)).
Definition statuses_ok (s : db.t) : Prop :=
  forall a, In a (db.applications s) -> status_ok (Application.status a).

(** Every key of the application table is one the column can hold. *)
Definition keys_fit (s : db.t) : Prop :=
  forall a, In a (db.applications s) -> db.int64 (Application.id a) = true.

(** The number of rows named ["admin"]. *)
Definition admin_count (s : db.t) : nat :=
  length (List.filter (fun u => String.eqb (User.username u) "admin") (db.users s)).

(** A verifier and an encoder matching [sample_hash] and [sample_decode],
    for the sample runs. *)
Definition sample_verify (plain hashed : string) : bool :=
  String.eqb hashed (sample_hash plain).
Definition sample_encode (claims : auth.Claims) (key : string) : string :=
  match auth.sub claims with
  | Some "alice" => "alice.token"
  | _ => "other.token"
  end.

(** A third application, submitted by alice at the instant 1200, and the
    store once it is in. *)
Definition app3_request : schemas.ApplicationCreate.t :=
  schemas.ApplicationCreate.mk "Anna Smirnova" (Decimal.mk 9999999 (-2)) "+79990001122".
Definition app3 : Application.t :=
  Application.mk 3 "Anna Smirnova" (Decimal.to_float (Decimal.mk 9999999 (-2)))
    "+79990001122" "new" 1200 2.
Definition sample_store3 : db.t :=
  db.mk [admin_row; alice_row; bob_row] [app1; app2; app3].

(** Unfolding of the monadic plumbing of a handler. *)
Ltac run_handler :=
  cbv beta delta [try_except mbind M_bind mret M_ret query raise_if raise
                  commit_status add_application add_user
                  first_application_by_id main.hash_or_raise] in *.

(** * Properties *)

(** ** Strings and phone numbers *)

Lemma chars_str (l : list ascii) : Py.chars (Py.str l) = l.
Proof. apply list_ascii_of_string_of_list_ascii. Qed.

Lemma len_str (l : list ascii) : Py.len (Py.str l) = Z.of_nat (length l).
Proof.
  unfold Py.len, Py.str. f_equal.
  induction l as [|c l IH]; simpl; [reflexivity | now rewrite IH].
Qed.

Lemma filter_filter_same {A} (p : A -> bool) (l : list A) :
  List.filter p (List.filter p l) = List.filter p l.
Proof.
  induction l as [|x l IH]; simpl; [reflexivity|].
  destruct (p x) eqn:E; simpl; [rewrite E, IH|]; auto.
Qed.

Lemma validate_phone_spec (v : string) :
  schemas.validate_phone v =
    if (10 <=? digit_count v) && (digit_count v <=? 15)
    then Valid ("+" +:+ Py.str (digits_of v)) else ValueError.
Proof.
  unfold schemas.validate_phone, digit_count, digits_of.
  destruct v as [|c v].
  - reflexivity.
  - change (negb (Py.truthy (String c v))) with false. cbv iota.
    unfold Py.join_filter. cbv zeta. rewrite len_str.
    set (n := Z.of_nat _).
    destruct (Z.ltb_spec n 10), (Z.leb_spec 10 n); try lia; simpl; [reflexivity|].
    rewrite Z.gtb_ltb.
    destruct (Z.ltb_spec 15 n), (Z.leb_spec n 15); try lia; reflexivity.
Qed.

Lemma digits_of_normalized (v : string) :
  digits_of ("+" +:+ Py.str (digits_of v)) = digits_of v.
Proof.
  unfold digits_of at 1. change ("+" +:+ ?s) with (String "+" s).
  change (Py.chars (String "+" ?s)) with ("+"%char :: Py.chars s).
  change (List.filter Py.isdigit ("+"%char :: ?l)) with (List.filter Py.isdigit l).
  rewrite chars_str. apply filter_filter_same.
Qed.

(** C8: phone normalization is idempotent on every accepted input, and the
    sample input ["8 (999) 123-45-67"] normalizes to ["+89991234567"]. *)
Theorem validate_phone_idempotent (v p : string)
    (Hv : schemas.validate_phone v = Valid p) :
  schemas.validate_phone p = Valid p /\
  schemas.validate_phone "8 (999) 123-45-67" = Valid "+89991234567".
Proof.
  split; [|reflexivity].
  rewrite validate_phone_spec in Hv.
  destruct ((10 <=? digit_count v) && (digit_count v <=? 15)) eqn:E; [|discriminate].
  injection Hv as <-.
  rewrite validate_phone_spec. unfold digit_count.
  rewrite digits_of_normalized. fold (digit_count v). now rewrite E.
Qed.

Lemma validate_phone_idempotent_witness :
  schemas.validate_phone "+89991234567" = Valid "+89991234567" /\
  schemas.validate_phone "8 (999) 123-45-67" = Valid "+89991234567".
Proof.
  apply (validate_phone_idempotent "8 (999) 123-45-67" "+89991234567").
  reflexivity.
Defined.

(** C10: acceptance of a phone depends on the number of its digit
    characters only: with 10 to 15 of them the input is accepted, whatever
    else it contains, and is normalized to ["+"] followed by its digits;
    with fewer than 10 or more than 15 it is rejected. *)
Theorem validate_phone_by_digit_count (v : string) :
  (10 <= digit_count v <= 15 ->
     schemas.validate_phone v = Valid ("+" +:+ Py.str (digits_of v))) /\
  (digit_count v < 10 \/ 15 < digit_count v ->
     schemas.validate_phone v = ValueError).
Proof.
  rewrite validate_phone_spec.
  destruct (Z.leb_spec 10 (digit_count v)), (Z.leb_spec (digit_count v) 15);
    simpl; split; intros; try reflexivity; lia.
Qed.

Lemma validate_phone_by_digit_count_witness :
  schemas.validate_phone "8 (999) 123-45-67" = Valid "+89991234567" /\
  schemas.validate_phone "12-34" = ValueError.
Proof.
  split.
  - apply (proj1 (validate_phone_by_digit_count "8 (999) 123-45-67")).
    vm_compute. split; discriminate.
  - apply (proj2 (validate_phone_by_digit_count "12-34")).
    left. vm_compute. reflexivity.
Defined.

(** ** The handlers *)

Lemma is_admin_true u : is_admin u = true <-> User.username u = "admin".
Proof. apply String.eqb_eq. Qed.

Lemma is_admin_false u : is_admin u = false <-> User.username u <> "admin".
Proof. apply String.eqb_neq. Qed.

(** A row with a given primary key exists iff the query by id finds one. *)
Lemma application_by_id_None (i : Z) (s : db.t) :
  db.application_by_id i s = None <->
  (forall a, In a (db.applications s) -> Application.id a <> i).
Proof.
  unfold db.application_by_id. split.
  - intros H a Ha E. apply (find_none _ _ H) in Ha. lia.
  - intros H. induction (db.applications s) as [|a l IH]; simpl; [reflexivity|].
    destruct (Z.eqb_spec (Application.id a) i) as [E|E].
    + exfalso. apply (H a); [now left | exact E].
    + apply IH. intros b Hb. apply H. now right.
Qed.

Lemma application_by_id_Some (i : Z) (s : db.t) (a : Application.t) :
  db.application_by_id i s = Some a ->
  In a (db.applications s) /\ Application.id a = i.
Proof.
  unfold db.application_by_id. intros H. apply find_some in H.
  destruct H as [H1 H2]. split; [exact H1 | lia].
Qed.

(** C5: a non-admin identity is listed exactly the rows it owns, the admin
    identity all rows; listing leaves the store as it is. *)
Theorem get_applications_scoped (u : User.t) (s : db.t) :
  (User.username u <> "admin" ->
     main.get_applications u s =
       (s, inr (List.filter (fun a => Application.user_id a =? User.id u)
                            (db.applications s))) /\
     forall l, main.get_applications u s = (s, inr l) ->
       forall a, In a l <->
                 In a (db.applications s) /\ Application.user_id a = User.id u) /\
  (User.username u = "admin" ->
     main.get_applications u s = (s, inr (db.applications s))).
Proof.
  unfold main.get_applications. fold (is_admin u). split.
  - intros Hu. apply is_admin_false in Hu. rewrite Hu. run_handler.
    split; [reflexivity|].
    intros l Hl a. injection Hl as <-. unfold db.applications_of.
    rewrite filter_In, Z.eqb_eq. reflexivity.
  - intros Hu. apply is_admin_true in Hu. rewrite Hu. reflexivity.
Qed.

(** With distinct keys, the row with a given key is the one the query
    finds. *)
Lemma application_by_id_unique (i : Z) (s : db.t) (a : Application.t) :
  application_ids_unique s ->
  In a (db.applications s) -> Application.id a = i ->
  db.application_by_id i s = Some a.
Proof.
  unfold application_ids_unique, db.application_by_id.
  induction (db.applications s) as [|b l IH]; simpl; intros Hnd Hin Hid; [easy|].
  inversion Hnd as [|x xs Hnot Hnd']; subst x xs.
  destruct Hin as [->|Hin].
  - apply Z.eqb_eq in Hid. now rewrite Hid.
  - destruct (Z.eqb_spec (Application.id b) i) as [E|E].
    + exfalso. apply Hnot. rewrite E, <- Hid. now apply in_map.
    + now apply IH.
Qed.

(** On a table whose keys fit, the query by id raises exactly when its
    parameter does not fit, and otherwise is the lookup. *)
Lemma first_application_by_id_fit (i : Z) (s : db.t) :
  keys_fit s ->
  first_application_by_id i s =
    if db.int64 i then (s, inr (db.application_by_id i s))
    else (s, inl OverflowError).
Proof.
  intros Hfit. unfold first_application_by_id.
  destruct (db.application_by_id i s) as [a|] eqn:Ha; [|reflexivity].
  destruct (application_by_id_Some _ _ _ Ha) as [Hin <-].
  now rewrite (Hfit a Hin).
Qed.

(** What [get_application] does, case by case. *)
Lemma get_application_cases (i : Z) (u : User.t) (s : db.t) :
  main.get_application i u s =
    match db.application_by_id i s with
    | None =>
        if db.int64 i
        then (s, inl (HTTPException 404 application_not_found))
        else (s, inl (HTTPException 500 internal_error))
    | Some a =>
        if negb (is_admin u) && negb (Application.user_id a =? User.id u)
        then (s, inl (HTTPException 403 no_view_permission))
        else (s, inr a)
    end.
Proof.
  unfold main.get_application, is_admin. run_handler.
  destruct (db.application_by_id i s).
  - destruct (negb _ && negb _); reflexivity.
  - destruct (db.int64 i); reflexivity.
Qed.

(** C6 (as the code has it): looking an application up by id checks
    existence first: an id with no row gives 404 whoever asks, provided it
    fits a signed 64-bit integer, and 500 if it does not; the row with the
    id, when it is owned by someone else, gives a non-admin caller 403;
    the admin and the owner get the row.  The store is left as it is. *)
Theorem get_application_order (i : Z) (u : User.t) (s : db.t) :
  ((forall a, In a (db.applications s) -> Application.id a <> i) ->
     (db.int64 i = true ->
        main.get_application i u s =
          (s, inl (HTTPException 404 application_not_found))) /\
     (db.int64 i = false ->
        main.get_application i u s =
          (s, inl (HTTPException 500 internal_error)))) /\
  (application_ids_unique s ->
   forall a, In a (db.applications s) -> Application.id a = i ->
     (User.username u <> "admin" -> Application.user_id a <> User.id u ->
        main.get_application i u s =
          (s, inl (HTTPException 403 no_view_permission))) /\
     (User.username u = "admin" \/ Application.user_id a = User.id u ->
        main.get_application i u s = (s, inr a))).
Proof.
  rewrite get_application_cases. split.
  - intros H. apply application_by_id_None in H. rewrite H.
    split; intros ->; reflexivity.
  - intros Hids a Hin Hid.
    rewrite (application_by_id_unique i s a Hids Hin Hid). split.
    + intros Hu Ho. apply is_admin_false in Hu. rewrite Hu.
      apply Z.eqb_neq in Ho. now rewrite Ho.
    + intros [Hu|Ho].
      * apply is_admin_true in Hu. now rewrite Hu.
      * apply Z.eqb_eq in Ho. rewrite Ho.
        now destruct (is_admin u).
Qed.

(** C6 as stated fails: an id that no row has can give 500 instead of
    404, here the id 2^63 asked for by bob. *)
Lemma get_application_nonexistent_not_404 :
  ~ (forall (i : Z) (u : User.t) (s : db.t),
       (forall a, In a (db.applications s) -> Application.id a <> i) ->
       main.get_application i u s =
         (s, inl (HTTPException 404 application_not_found))).
Proof.
  intros H.
  specialize (H (2 ^ 63) bob_row sample_store).
  assert (Hnone : forall a, In a (db.applications sample_store) ->
                            Application.id a <> 2 ^ 63).
  { intros a [<-|[<-|[]]]; discriminate. }
  specialize (H Hnone). vm_compute in H. discriminate H.
Qed.

(** C4: the status update succeeds for the admin identity only; any other
    identity gets 403 and the store is left as it is, whether or not it
    owns the row and whether or not the id exists. *)
Theorem update_application_status_admin_only
    (i : Z) (upd : schemas.ApplicationUpdateStatus.t) (u : User.t) (s : db.t) :
  (User.username u <> "admin" ->
     main.update_application_status i upd u s =
       (s, inl (HTTPException 403 admin_only))) /\
  (forall s' a, main.update_application_status i upd u s = (s', inr a) ->
     User.username u = "admin").
Proof.
  unfold main.update_application_status. fold (is_admin u). split.
  - intros Hu. apply is_admin_false in Hu. rewrite Hu. reflexivity.
  - intros s' a. destruct (is_admin u) eqn:Hu.
    + intros _. now apply is_admin_true.
    + run_handler. simpl. discriminate.
Qed.

(** What a successful status update does to the store. *)
Lemma update_application_status_ok
    (i : Z) (upd : schemas.ApplicationUpdateStatus.t) (u : User.t)
    (s s' : db.t) (a' : Application.t) :
  main.update_application_status i upd u s = (s', inr a') ->
  let st := schemas.status_str (schemas.ApplicationUpdateStatus.status upd) in
  exists a,
    db.application_by_id i s = Some a /\
    a' = Application.set_status st a /\
    s' = db.mk (db.users s)
           (map (fun b => if Application.id b =? i
                          then Application.set_status st b else b)
                (db.applications s)).
Proof.
  unfold main.update_application_status. fold (is_admin u).
  run_handler. destruct (is_admin u); simpl; [|discriminate].
  destruct (db.application_by_id i s) as [a|] eqn:Ha;
    [|destruct (db.int64 i); discriminate].
  intros H. injection H as <- <-.
  destruct (application_by_id_Some _ _ _ Ha) as [_ ->].
  exists a. auto.
Qed.

(** C9: a successful status update changes the status field of the
    targeted row and nothing else: its id, full name, amount, phone,
    creation time and owner are kept, the user table is kept, and every
    row with another id is kept in its place. *)
Theorem update_application_status_frame
    (i : Z) (upd : schemas.ApplicationUpdateStatus.t) (u : User.t)
    (s s' : db.t) (a' : Application.t)
    (Hok : main.update_application_status i upd u s = (s', inr a')) :
  (exists a, db.application_by_id i s = Some a /\
     Application.id a' = Application.id a /\
     Application.full_name a' = Application.full_name a /\
     Application.amount a' = Application.amount a /\
     Application.phone a' = Application.phone a /\
     Application.created_at a' = Application.created_at a /\
     Application.user_id a' = Application.user_id a /\
     Application.status a' =
       schemas.status_str (schemas.ApplicationUpdateStatus.status upd)) /\
  db.users s' = db.users s /\
  length (db.applications s') = length (db.applications s) /\
  (forall n b, nth_error (db.applications s) n = Some b ->
     exists b', nth_error (db.applications s') n = Some b' /\
       Application.id b' = Application.id b /\
       Application.full_name b' = Application.full_name b /\
       Application.amount b' = Application.amount b /\
       Application.phone b' = Application.phone b /\
       Application.created_at b' = Application.created_at b /\
       Application.user_id b' = Application.user_id b /\
       (Application.id b <> i -> b' = b)).
Proof.
  apply update_application_status_ok in Hok. cbv zeta in Hok.
  destruct Hok as (a & Ha & -> & ->). simpl. split; [|split; [|split]].
  - exists a. repeat split; auto.
  - reflexivity.
  - apply length_map.
  - intros n b Hb. rewrite nth_error_map, Hb. simpl.
    eexists. split; [reflexivity|].
    destruct (Z.eqb_spec (Application.id b) i); simpl; repeat split; auto.
    intros; congruence.
Qed.

(** The threshold test is a comparison of the denoted numbers. *)
Lemma Decimal_gt_spec (a b : Decimal.t) :
  Decimal.gt a b = true <-> (Decimal.value b < Decimal.value a)%Q.
Proof.
  unfold Decimal.gt, Decimal.compare.
  destruct (Qcompare_spec (Decimal.value a) (Decimal.value b)) as [E|E|E];
    split; intros H; try discriminate; try reflexivity; try exact E.
  - rewrite E in H. exfalso. apply (Qlt_irrefl _ H).
  - exfalso. apply (Qlt_irrefl (Decimal.value a)).
    now apply Qlt_trans with (Decimal.value b).
Qed.

Lemma Decimal_value_of_Z (n : Z) : (Decimal.value (Decimal.of_Z n) == inject_Z n)%Q.
Proof. unfold Decimal.value, Decimal.of_Z. simpl. ring. Qed.

(** C2: submitting an application creates exactly one row, appended to
    the table and returned; its status is ["rejected"] when the amount
    exceeds 100000 and ["new"] when it does not (100000 itself included);
    the rows that were there are untouched. *)
Theorem create_application_initial_status
    (now : Z) (application : schemas.ApplicationCreate.t) (u : User.t) (s : db.t) :
  exists row,
    main.create_application now application u s =
      (db.mk (db.users s) (db.applications s ++ [row]), inr row) /\
    Application.user_id row = User.id u /\
    ((100000 < Decimal.value (schemas.ApplicationCreate.amount application))%Q ->
       Application.status row = "rejected") /\
    ((Decimal.value (schemas.ApplicationCreate.amount application) <= 100000)%Q ->
       Application.status row = "new") /\
    ((Decimal.value (schemas.ApplicationCreate.amount application) == 100000)%Q ->
       Application.status row = "new").
Proof.
  unfold main.create_application. run_handler.
  eexists. split; [reflexivity|]. simpl. split; [reflexivity|].
  set (a := schemas.ApplicationCreate.amount application).
  pose proof (Decimal_gt_spec a (Decimal.of_Z 100000)) as G.
  rewrite Decimal_value_of_Z in G.
  destruct (Decimal.gt a (Decimal.of_Z 100000)).
  - assert (L : (100000 < Decimal.value a)%Q) by now apply G.
    split; [reflexivity|]. split; intros H; exfalso.
    + apply (Qlt_irrefl 100000). now apply Qlt_le_trans with (Decimal.value a).
    + rewrite H in L. apply (Qlt_irrefl _ L).
  - split; [|split; reflexivity].
    intros L. apply G in L. discriminate.
Qed.

(** ** Registration *)

Lemma UserCreate_valid (username password : string) (user : schemas.UserCreate.t) :
  schemas.UserCreate.model_validate username password = Valid user ->
  user = schemas.UserCreate.mk username password /\
  schemas.field (schemas.length_between 3 (Some 50)) schemas.validate_username
    username = Valid username.
Proof.
  unfold schemas.UserCreate.model_validate, schemas.bind, schemas.field.
  destruct (schemas.length_between 3 (Some 50) username); [|discriminate].
  unfold schemas.validate_username.
  destruct (negb (Py.truthy username)); [discriminate|].
  destruct (Py.contains " " username); [discriminate|].
  destruct (schemas.length_between 6 None password); [|discriminate].
  unfold schemas.validate_password.
  destruct (negb (Py.truthy password)); [discriminate|].
  destruct (Py.len password <? 6); [discriminate|].
  intros H. injection H as <-. auto.
Qed.

Lemma register_user_ok (hash : string -> string) (user : schemas.UserCreate.t)
    (s s' : db.t) (row : User.t) :
  main.register_user hash user s = (s', inr row) ->
  row = User.mk (db.next_id (map User.id (db.users s)))
          (schemas.UserCreate.username user)
          (hash (schemas.UserCreate.password user)) /\
  s' = db.mk (db.users s ++ [row]) (db.applications s).
Proof.
  unfold main.register_user, auth.get_password_hash. run_handler.
  destruct (String.eqb (schemas.UserCreate.username user) "admin"); [discriminate|].
  destruct (db.user_by_username (schemas.UserCreate.username user) s) eqn:E.
  - rewrite bool_decide_eq_true_2 by eauto. discriminate.
  - rewrite bool_decide_eq_false_2 by (intros [? ?]; discriminate).
    destruct (Py.contains "000"%char (schemas.UserCreate.password user));
      [discriminate|].
    rewrite E. intros H. injection H as <- <-. auto.
Qed.

(** C1 (as the code has it): an accepted registration answers with the
    created user row in full: the username, the id the store assigned and
    the password hash. *)
Theorem register_user_response
    (hash : string -> string) (username password : string)
    (user : schemas.UserCreate.t) (s s' : db.t) (row : User.t)
    (Hvalid : schemas.UserCreate.model_validate username password = Valid user)
    (Hok : main.register_user hash user s = (s', inr row)) :
  In row (db.users s') /\
  User.id row = db.next_id (map User.id (db.users s)) /\
  exists body : gmap string JSON,
    main.User_response row = Valid body /\
    body !! "username" = Some (JStr username) /\
    body !! "id" = Some (JInt (User.id row)) /\
    body !! "hashed_password" = Some (JStr (hash password)).
Proof.
  apply UserCreate_valid in Hvalid. destruct Hvalid as [-> Hname].
  apply register_user_ok in Hok. simpl in Hok. destruct Hok as [-> ->].
  simpl. split; [apply in_or_app; right; now left|]. split; [reflexivity|].
  unfold main.User_response. simpl. rewrite Hname. simpl.
  eexists. split; [reflexivity|].
  unfold schemas.User.model_dump. simpl.
  split; [apply lookup_insert_eq|].
  split; [rewrite lookup_insert_ne by discriminate; apply lookup_insert_eq|].
  do 2 (rewrite lookup_insert_ne by discriminate). apply lookup_insert_eq.
Qed.

Lemma register_user_response_witness :
  exists body : gmap string JSON,
    main.User_response (User.mk 1 "alice" (sample_hash "secret1")) = Valid body /\
    body !! "username" = Some (JStr "alice") /\
    body !! "id" = Some (JInt 1) /\
    body !! "hashed_password" = Some (JStr (sample_hash "secret1")).
Proof.
  apply (register_user_response sample_hash "alice" "secret1"
           (schemas.UserCreate.mk "alice" "secret1") empty_store
           (db.mk [User.mk 1 "alice" (sample_hash "secret1")] [])
           (User.mk 1 "alice" (sample_hash "secret1"))).
  - reflexivity.
  - reflexivity.
Defined.

(** C1 as stated fails: the body answered to an accepted registration
    does contain the password hash. *)
Lemma register_user_response_has_hash :
  ~ (forall (hash : string -> string) (username password : string)
            (user : schemas.UserCreate.t) (s s' : db.t) (row : User.t)
            (body : gmap string JSON),
       schemas.UserCreate.model_validate username password = Valid user ->
       main.register_user hash user s = (s', inr row) ->
       main.User_response row = Valid body ->
       body !! "hashed_password" = None).
Proof.
  intros H.
  specialize (H sample_hash "alice" "secret1" _ empty_store _ _ _
                eq_refl eq_refl eq_refl).
  vm_compute in H. discriminate H.
Qed.

(** ** Identity resolution *)

Lemma user_by_username_Some (name : string) (s : db.t) (u : User.t) :
  db.user_by_username name s = Some u ->
  In u (db.users s) /\ User.username u = name.
Proof.
  unfold db.user_by_username. intros H. apply find_some in H.
  destruct H as [H1 H2]. split; [exact H1 | now apply String.eqb_eq].
Qed.



(** ** Sample runs of the handlers *)

Lemma get_applications_scoped_witness :
  main.get_applications alice_row sample_store = (sample_store, inr [app1]) /\
  main.get_applications admin_row sample_store = (sample_store, inr [app1; app2]).
Proof.
  split.
  - apply (proj1 (proj1 (get_applications_scoped alice_row sample_store)
                    ltac:(discriminate))).
  - apply (proj2 (get_applications_scoped admin_row sample_store)).
    reflexivity.
Defined.

Lemma sample_store_ids_unique : application_ids_unique sample_store.
Proof.
  unfold application_ids_unique. simpl.
  repeat (apply List.NoDup_cons; [simpl; intuition discriminate|]).
  apply List.NoDup_nil.
Defined.

Lemma get_application_order_witness :
  main.get_application 99 bob_row sample_store
    = (sample_store, inl (HTTPException 404 application_not_found)) /\
  main.get_application (2 ^ 63) bob_row sample_store
    = (sample_store, inl (HTTPException 500 internal_error)) /\
  main.get_application 1 bob_row sample_store
    = (sample_store, inl (HTTPException 403 no_view_permission)) /\
  main.get_application 1 alice_row sample_store = (sample_store, inr app1) /\
  main.get_application 1 admin_row sample_store = (sample_store, inr app1).
Proof.
  split; [|split; [|split; [|split]]].
  - apply (proj1 (get_application_order 99 bob_row sample_store)).
    + intros a [<-|[<-|[]]]; discriminate.
    + reflexivity.
  - apply (proj1 (get_application_order (2 ^ 63) bob_row sample_store)).
    + intros a [<-|[<-|[]]]; discriminate.
    + reflexivity.
  - apply (proj2 (get_application_order 1 bob_row sample_store)
             sample_store_ids_unique app1).
    + left. reflexivity.
    + reflexivity.
    + discriminate.
    + discriminate.
  - apply (proj2 (get_application_order 1 alice_row sample_store)
             sample_store_ids_unique app1).
    + left. reflexivity.
    + reflexivity.
    + right. reflexivity.
  - apply (proj2 (get_application_order 1 admin_row sample_store)
             sample_store_ids_unique app1).
    + left. reflexivity.
    + reflexivity.
    + left. reflexivity.
Defined.

Lemma update_application_status_admin_only_witness :
  main.update_application_status 1
    (schemas.ApplicationUpdateStatus.mk schemas.approved) alice_row sample_store
    = (sample_store, inl (HTTPException 403 admin_only)) /\
  main.update_application_status 99
    (schemas.ApplicationUpdateStatus.mk schemas.approved) bob_row sample_store
    = (sample_store, inl (HTTPException 403 admin_only)) /\
  User.username admin_row = "admin".
Proof.
  split; [|split].
  - apply (proj1 (update_application_status_admin_only 1
                    (schemas.ApplicationUpdateStatus.mk schemas.approved)
                    alice_row sample_store)).
    discriminate.
  - apply (proj1 (update_application_status_admin_only 99
                    (schemas.ApplicationUpdateStatus.mk schemas.approved)
                    bob_row sample_store)).
    discriminate.
  - apply (proj2 (update_application_status_admin_only 1
                    (schemas.ApplicationUpdateStatus.mk schemas.approved)
                    admin_row sample_store)
             (db.mk (db.users sample_store)
                    [Application.set_status "approved" app1; app2])
             (Application.set_status "approved" app1)).
    reflexivity.
Defined.

Lemma update_application_status_frame_witness :
  db.users (db.mk (db.users sample_store)
              [Application.set_status "approved" app1; app2])
    = db.users sample_store /\
  Application.status (Application.set_status "approved" app1) = "approved".
Proof.
  destruct (update_application_status_frame 1
              (schemas.ApplicationUpdateStatus.mk schemas.approved)
              admin_row sample_store
              (db.mk (db.users sample_store)
                     [Application.set_status "approved" app1; app2])
              (Application.set_status "approved" app1) eq_refl)
    as ((a & _ & _ & _ & _ & _ & _ & _ & Hst) & Hu & _).
  split; [exact Hu | exact Hst].
Defined.

Lemma create_application_initial_status_witness :
  (exists row,
     main.create_application 1200
       (schemas.ApplicationCreate.mk "Anna Smirnova" (Decimal.mk 15000000 (-2))
          "+79990001122") alice_row sample_store
       = (db.mk (db.users sample_store) (db.applications sample_store ++ [row]),
          inr row) /\
     Application.status row = "rejected") /\
  (exists row,
     main.create_application 1200
       (schemas.ApplicationCreate.mk "Anna Smirnova" (Decimal.mk 9999999 (-2))
          "+79990001122") alice_row sample_store
       = (db.mk (db.users sample_store) (db.applications sample_store ++ [row]),
          inr row) /\
     Application.status row = "new") /\
  (exists row,
     main.create_application 1200
       (schemas.ApplicationCreate.mk "Anna Smirnova" (Decimal.mk 100000 0)
          "+79990001122") alice_row sample_store
       = (db.mk (db.users sample_store) (db.applications sample_store ++ [row]),
          inr row) /\
     Application.status row = "new").
Proof.
  split; [|split].
  - destruct (create_application_initial_status 1200
                (schemas.ApplicationCreate.mk "Anna Smirnova"
                   (Decimal.mk 15000000 (-2)) "+79990001122")
                alice_row sample_store) as (row & Hrun & _ & Hgt & _ & _).
    exists row. split; [exact Hrun|]. apply Hgt. vm_compute. reflexivity.
  - destruct (create_application_initial_status 1200
                (schemas.ApplicationCreate.mk "Anna Smirnova"
                   (Decimal.mk 9999999 (-2)) "+79990001122")
                alice_row sample_store) as (row & Hrun & _ & _ & Hle & _).
    exists row. split; [exact Hrun|]. apply Hle. vm_compute. discriminate.
  - destruct (create_application_initial_status 1200
                (schemas.ApplicationCreate.mk "Anna Smirnova"
                   (Decimal.mk 100000 0) "+79990001122")
                alice_row sample_store) as (row & Hrun & _ & _ & _ & Heq).
    exists row. split; [exact Hrun|]. apply Heq. vm_compute. reflexivity.
Defined.

(** ** The stored amount *)

(** C3 (the code at an amount just above the threshold): the request is
    accepted and compared as a decimal, so the row is ["rejected"], but the
    [Float] column keeps the binary64 value 100000.0, which is not the
    amount submitted and does not exceed the threshold. *)
Theorem create_application_amount_stored_as_float :
  exists application row,
    schemas.ApplicationCreate.model_validate
      "Ivan Ivanov" just_over_threshold "+7 999 123-45-67" = Valid application /\
    main.create_application 1200 application alice_row empty_store
      = (db.mk [] [row], inr row) /\
    Application.status row = "rejected" /\
    Application.amount row = S754_finite false 6871947673600000 (-36) /\
    Float.denotes (Application.amount row) 100000 /\
    (100000 < Decimal.value just_over_threshold)%Q /\
    ~ Float.denotes (Application.amount row) (Decimal.value just_over_threshold).
Proof.
  eexists. eexists. split; [reflexivity|]. split; [reflexivity|].
  split; [reflexivity|]. split; [vm_compute; reflexivity|].
  split; [|split].
  - eexists. split; [vm_compute; reflexivity|]. vm_compute. reflexivity.
  - vm_compute. reflexivity.
  - intros (r & Hr & Hq). vm_compute in Hr. injection Hr as <-.
    vm_compute in Hq. discriminate Hq.
Qed.

(** * Further properties of the code *)

(** ** Registration and the user table *)

Lemma user_by_username_None (name : string) (s : db.t) :
  db.user_by_username name s = None <->
  ~ In name (map User.username (db.users s)).
Proof.
  unfold db.user_by_username. split.
  - intros H Hin. apply in_map_iff in Hin. destruct Hin as (u & Hu & Hin).
    apply (find_none _ _ H) in Hin. apply String.eqb_neq in Hin. congruence.
  - intros H. induction (db.users s) as [|u l IH]; simpl; [reflexivity|].
    destruct (String.eqb_spec (User.username u) name) as [E|E].
    + exfalso. apply H. left. exact E.
    + apply IH. intros Hin. apply H. right. exact Hin.
Qed.

(** What [register_user] does, case by case. *)
Lemma register_user_cases (hash : string -> string) (user : schemas.UserCreate.t)
    (s : db.t) :
  main.register_user hash user s =
    if String.eqb (schemas.UserCreate.username user) "admin"
    then (s, inl (HTTPException 400 admin_name_forbidden))
    else match db.user_by_username (schemas.UserCreate.username user) s with
         | Some _ => (s, inl (HTTPException 400 username_taken))
         | None =>
             if Py.contains "000"%char (schemas.UserCreate.password user)
             then (s, inl (HTTPException 500 internal_error))
             else
               let row := User.mk (db.next_id (map User.id (db.users s)))
                            (schemas.UserCreate.username user)
                            (hash (schemas.UserCreate.password user)) in
               (db.mk (db.users s ++ [row]) (db.applications s), inr row)
         end.
Proof.
  unfold main.register_user, auth.get_password_hash. run_handler.
  destruct (String.eqb (schemas.UserCreate.username user) "admin"); [reflexivity|].
  destruct (db.user_by_username (schemas.UserCreate.username user) s) eqn:E.
  - rewrite bool_decide_eq_true_2 by eauto. reflexivity.
  - rewrite bool_decide_eq_false_2 by (intros [? ?]; discriminate).
    destruct (Py.contains "000"%char (schemas.UserCreate.password user));
      [reflexivity|].
    rewrite E. reflexivity.
Qed.

(** X1: registration never makes an admin: the name ["admin"] is refused
    with 400 whatever the password and the store, and after a successful
    registration every row named ["admin"] was there before. *)
Theorem register_user_never_admin (hash : string -> string)
    (user : schemas.UserCreate.t) (s : db.t) :
  (schemas.UserCreate.username user = "admin" ->
     main.register_user hash user s =
       (s, inl (HTTPException 400 admin_name_forbidden))) /\
  (forall s' row, main.register_user hash user s = (s', inr row) ->
     User.username row <> "admin" /\
     admin_count s' = admin_count s /\
     forall u, In u (db.users s') -> User.username u = "admin" ->
               In u (db.users s)).
Proof.
  rewrite register_user_cases. split.
  - intros ->. reflexivity.
  - intros s' row.
    destruct (String.eqb_spec (schemas.UserCreate.username user) "admin") as [E|E];
      [discriminate|].
    destruct (db.user_by_username _ s); [discriminate|].
    destruct (Py.contains "000"%char _); [discriminate|].
    cbv zeta. intros H. injection H as <- <-. simpl.
    split; [exact E|]. split.
    + unfold admin_count. simpl. rewrite List.filter_app, length_app. simpl.
      apply String.eqb_neq in E. rewrite E. simpl. lia.
    + intros u Hu Hn. apply in_app_or in Hu. destruct Hu as [Hu|[<-|[]]]; auto.
      simpl in Hn. contradiction.
Qed.

Lemma register_user_never_admin_witness :
  main.register_user sample_hash (schemas.UserCreate.mk "admin" "whatever1") empty_store
    = (empty_store, inl (HTTPException 400 admin_name_forbidden)) /\
  User.username (User.mk 4 "carol" (sample_hash "secret3")) <> "admin".
Proof.
  split.
  - apply (proj1 (register_user_never_admin sample_hash
                    (schemas.UserCreate.mk "admin" "whatever1") empty_store)).
    reflexivity.
  - apply (proj2 (register_user_never_admin sample_hash
                    (schemas.UserCreate.mk "carol" "secret3") sample_store)
             (db.mk (db.users sample_store ++ [User.mk 4 "carol" (sample_hash "secret3")])
                    (db.applications sample_store))
             (User.mk 4 "carol" (sample_hash "secret3"))).
    reflexivity.
Defined.

(** X2: a username can be registered once: if a row with the name exists
    the request is refused with 400 and the store is left as it is; in
    particular a second registration of a name just registered fails,
    whatever its password. *)
Theorem register_user_duplicate (hash : string -> string)
    (user : schemas.UserCreate.t) (s : db.t) :
  (forall u, In u (db.users s) ->
     User.username u = schemas.UserCreate.username user ->
     exists d, main.register_user hash user s = (s, inl (HTTPException 400 d))) /\
  (forall s' row password2,
     main.register_user hash user s = (s', inr row) ->
     main.register_user hash
       (schemas.UserCreate.mk (schemas.UserCreate.username user) password2) s'
       = (s', inl (HTTPException 400 username_taken))).
Proof.
  split.
  - intros u Hu Hn. rewrite register_user_cases.
    destruct (String.eqb _ "admin"); [eauto|].
    destruct (db.user_by_username _ s) eqn:E; [eauto|].
    exfalso. apply user_by_username_None in E. apply E.
    apply in_map_iff. eauto.
  - intros s' row password2 H. rewrite register_user_cases in H.
    rewrite register_user_cases.
    cbn [schemas.UserCreate.username schemas.UserCreate.password].
    destruct (String.eqb (schemas.UserCreate.username user) "admin");
      [discriminate|].
    destruct (db.user_by_username _ s) eqn:E; [discriminate|].
    destruct (Py.contains "000"%char (schemas.UserCreate.password user));
      [discriminate|].
    cbv zeta in H. injection H as <- <-.
    destruct (db.user_by_username (schemas.UserCreate.username user) (db.mk _ _))
      eqn:E'; [reflexivity|].
    exfalso. apply user_by_username_None in E'. apply E'. simpl.
    rewrite map_app. apply in_or_app. right. now left.
Qed.

Lemma register_user_duplicate_witness :
  (exists d, main.register_user sample_hash (schemas.UserCreate.mk "alice" "another1")
               sample_store = (sample_store, inl (HTTPException 400 d))) /\
  main.register_user sample_hash (schemas.UserCreate.mk "carol" "different")
    (db.mk (db.users sample_store ++ [User.mk 4 "carol" (sample_hash "secret3")])
       (db.applications sample_store))
  = (db.mk (db.users sample_store ++ [User.mk 4 "carol" (sample_hash "secret3")])
       (db.applications sample_store),
     inl (HTTPException 400 username_taken)).
Proof.
  split.
  - apply (proj1 (register_user_duplicate sample_hash
                    (schemas.UserCreate.mk "alice" "another1") sample_store)
             alice_row).
    + right. left. reflexivity.
    + reflexivity.
  - apply (proj2 (register_user_duplicate sample_hash
                    (schemas.UserCreate.mk "carol" "secret3") sample_store)
             _ (User.mk 4 "carol" (sample_hash "secret3")) "different").
    reflexivity.
Defined.

(** X3: registration keeps usernames unique: if no two rows of the user
    table share a username before the call, none do after it, whether it
    succeeds or fails. *)
Theorem register_user_keeps_usernames_unique (hash : string -> string)
    (user : schemas.UserCreate.t) (s s' : db.t) (r : Exc + User.t)
    (Hinv : usernames_unique s)
    (Hrun : main.register_user hash user s = (s', r)) :
  usernames_unique s'.
Proof.
  rewrite register_user_cases in Hrun.
  destruct (String.eqb _ "admin"); [injection Hrun as <- _; exact Hinv|].
  destruct (db.user_by_username _ s) eqn:E; [injection Hrun as <- _; exact Hinv|].
  destruct (Py.contains "000"%char _); [injection Hrun as <- _; exact Hinv|].
  cbv zeta in Hrun. injection Hrun as <- _.
  unfold usernames_unique in *. simpl. rewrite map_app. simpl.
  apply user_by_username_None in E.
  apply List.NoDup_app; [exact Hinv | apply List.NoDup_cons; [intros [] | constructor] |].
  intros x Hx [<-|[]]. exact (E Hx).
Qed.

Lemma register_user_keeps_usernames_unique_witness :
  usernames_unique
    (db.mk (db.users sample_store ++ [User.mk 4 "carol" (sample_hash "secret3")])
       (db.applications sample_store)).
Proof.
  apply (register_user_keeps_usernames_unique sample_hash
           (schemas.UserCreate.mk "carol" "secret3") sample_store _
           (inr (User.mk 4 "carol" (sample_hash "secret3")))).
  - unfold usernames_unique. simpl.
    repeat (apply List.NoDup_cons; [simpl; intuition discriminate|]).
    apply List.NoDup_nil.
  - reflexivity.
Defined.

(** ** The application table *)

Lemma next_id_fresh (ids : list Z) :
  0 < db.next_id ids /\ forall x, In x ids -> x < db.next_id ids.
Proof.
  unfold db.next_id. induction ids as [|y ids [IH0 IH]]; simpl.
  - split; [lia | intros x []].
  - split; [lia|]. intros x [<-|Hx]; [lia|]. specialize (IH x Hx). lia.
Qed.

Lemma create_application_cases (now : Z) (application : schemas.ApplicationCreate.t)
    (u : User.t) (s : db.t) :
  main.create_application now application u s =
    let row := Application.mk
                 (db.next_id (map Application.id (db.applications s)))
                 (schemas.ApplicationCreate.full_name application)
                 (Decimal.to_float (schemas.ApplicationCreate.amount application))
                 (schemas.ApplicationCreate.phone application)
                 (if Decimal.gt (schemas.ApplicationCreate.amount application)
                                (Decimal.of_Z 100000)
                  then "rejected" else "new")
                 now (User.id u) in
    (db.mk (db.users s) (db.applications s ++ [row]), inr row).
Proof. reflexivity. Qed.

Lemma find_snoc_fresh {A} (p : A -> bool) (l : list A) (x : A) :
  (forall y, In y l -> p y = false) -> p x = true ->
  List.find p (l ++ [x]) = Some x.
Proof.
  intros Hl Hx. induction l as [|y l IH]; simpl.
  - now rewrite Hx.
  - rewrite (Hl y) by now left. apply IH. intros z Hz. apply Hl. now right.
Qed.

(** X4: a created application can be read back: its id is positive and
    larger than every id in the table, it carries the submitted name and
    phone, the creation time and the caller's id, and looking it up by its
    id right after returns the same row to its creator and to the admin,
    and 403 to any other non-admin user. *)
Theorem create_then_get_application (now : Z)
    (application : schemas.ApplicationCreate.t) (u : User.t) (s s' : db.t)
    (row : Application.t)
    (Hrun : main.create_application now application u s = (s', inr row)) :
  (0 < Application.id row /\
   forall a, In a (db.applications s) -> Application.id a < Application.id row) /\
  (Application.full_name row = schemas.ApplicationCreate.full_name application /\
   Application.phone row = schemas.ApplicationCreate.phone application /\
   Application.created_at row = now /\
   Application.user_id row = User.id u) /\
  main.get_application (Application.id row) u s' = (s', inr row) /\
  (forall v, User.username v = "admin" ->
     main.get_application (Application.id row) v s' = (s', inr row)) /\
  (forall v, User.username v <> "admin" -> User.id v <> User.id u ->
     main.get_application (Application.id row) v s'
       = (s', inl (HTTPException 403 no_view_permission))).
Proof.
  rewrite create_application_cases in Hrun. cbv zeta in Hrun.
  injection Hrun as <- <-. simpl.
  destruct (next_id_fresh (map Application.id (db.applications s))) as [H0 Hlt].
  assert (Hfresh : forall a, In a (db.applications s) ->
            Application.id a < db.next_id (map Application.id (db.applications s))).
  { intros a Ha. apply Hlt. now apply in_map. }
  split; [split; assumption|]. split; [auto|].
  set (row := Application.mk _ _ _ _ _ _ _).
  assert (Hfind : db.application_by_id (Application.id row)
                    (db.mk (db.users s) (db.applications s ++ [row])) = Some row).
  { unfold db.application_by_id. simpl. apply find_snoc_fresh.
    - intros y Hy. apply Z.eqb_neq. specialize (Hfresh y Hy). lia.
    - apply Z.eqb_refl. }
  split; [|split].
  - rewrite get_application_cases. simpl in Hfind |- *. rewrite Hfind. simpl.
    rewrite Z.eqb_refl, andb_false_r. reflexivity.
  - intros v Hv. rewrite get_application_cases. simpl in Hfind |- *. rewrite Hfind.
    apply is_admin_true in Hv. rewrite Hv. reflexivity.
  - intros v Hv Hid. rewrite get_application_cases. simpl in Hfind |- *.
    rewrite Hfind. apply is_admin_false in Hv. rewrite Hv. simpl.
    replace (User.id u =? User.id v) with false
      by (symmetry; apply Z.eqb_neq; congruence).
    reflexivity.
Qed.

Lemma create_then_get_application_witness :
  main.get_application 3 alice_row sample_store3 = (sample_store3, inr app3) /\
  main.get_application 3 bob_row sample_store3
    = (sample_store3, inl (HTTPException 403 no_view_permission)).
Proof.
  destruct (create_then_get_application 1200 app3_request alice_row
              sample_store sample_store3 app3 eq_refl)
    as (_ & _ & Hget & _ & Hother).
  split; [exact Hget|].
  apply (Hother bob_row); discriminate.
Defined.

Lemma get_applications_cases (v : User.t) (s : db.t) :
  main.get_applications v s =
    (s, inr (if is_admin v then db.applications s
             else List.filter (fun a => Application.user_id a =? User.id v)
                    (db.applications s))).
Proof.
  unfold main.get_applications, is_admin. run_handler.
  destruct (String.eqb _ _); reflexivity.
Qed.

(** X5: a new application shows up exactly where it should: after a
    creation by [u], the listing of the admin and of [u] is the earlier
    listing followed by the new row, and the listing of any other
    non-admin user is what it was. *)
Theorem create_application_listing (now : Z)
    (application : schemas.ApplicationCreate.t) (u v : User.t) (s s' : db.t)
    (row : Application.t) (l : list Application.t)
    (Hrun : main.create_application now application u s = (s', inr row))
    (Hbefore : main.get_applications v s = (s, inr l)) :
  (User.username v = "admin" \/ User.id v = User.id u ->
     main.get_applications v s' = (s', inr (l ++ [row])%list)) /\
  (User.username v <> "admin" -> User.id v <> User.id u ->
     main.get_applications v s' = (s', inr l)).
Proof.
  rewrite create_application_cases in Hrun. cbv zeta in Hrun.
  injection Hrun as <- <-.
  rewrite get_applications_cases in Hbefore. injection Hbefore as <-.
  rewrite get_applications_cases. simpl. rewrite List.filter_app. simpl.
  split.
  - intros [Hv|Hv].
    + apply is_admin_true in Hv. rewrite Hv. reflexivity.
    + destruct (is_admin v); [reflexivity|].
      rewrite Hv, Z.eqb_refl. reflexivity.
  - intros Hv Hid. apply is_admin_false in Hv. rewrite Hv.
    replace (User.id u =? User.id v) with false
      by (symmetry; apply Z.eqb_neq; congruence).
    now rewrite app_nil_r.
Qed.

Lemma create_application_listing_witness :
  main.get_applications alice_row sample_store3 = (sample_store3, inr [app1; app3]) /\
  main.get_applications bob_row sample_store3 = (sample_store3, inr [app2]).
Proof.
  split.
  - apply (proj1 (create_application_listing 1200 app3_request alice_row alice_row
                    sample_store sample_store3 app3 [app1] eq_refl eq_refl)).
    right. reflexivity.
  - apply (proj2 (create_application_listing 1200 app3_request alice_row bob_row
                    sample_store sample_store3 app3 [app2] eq_refl eq_refl));
      discriminate.
Defined.

Lemma find_map_status (i : Z) (st : string) (l : list Application.t) :
  List.find (fun a => Application.id a =? i)
    (map (fun b => if Application.id b =? i
                   then Application.set_status st b else b) l)
  = option_map (Application.set_status st)
      (List.find (fun a => Application.id a =? i) l).
Proof.
  induction l as [|b l IH]; simpl; [reflexivity|].
  destruct (Application.id b =? i) eqn:E; simpl; rewrite E; [reflexivity | exact IH].
Qed.

Lemma update_application_status_cases (i : Z)
    (upd : schemas.ApplicationUpdateStatus.t) (u : User.t) (s : db.t) :
  main.update_application_status i upd u s =
    if negb (is_admin u) then (s, inl (HTTPException 403 admin_only))
    else match db.application_by_id i s with
         | None =>
             if db.int64 i
             then (s, inl (HTTPException 404 application_not_found))
             else (s, inl (HTTPException 500 internal_error))
         | Some a =>
             let st := schemas.status_str (schemas.ApplicationUpdateStatus.status upd) in
             (db.mk (db.users s)
                (map (fun b => if Application.id b =? i
                               then Application.set_status st b else b)
                     (db.applications s)),
              inr (Application.set_status st a))
         end.
Proof.
  unfold main.update_application_status, is_admin. run_handler.
  destruct (String.eqb _ _); simpl; [|reflexivity].
  destruct (db.application_by_id i s) as [a|] eqn:Ha;
    [|destruct (db.int64 i); reflexivity].
  destruct (application_by_id_Some _ _ _ Ha) as [_ ->]. reflexivity.
Qed.

(** X6: a status update is read back and the last write wins: after a
    successful update the caller gets the returned row, with the new
    status, when looking the id up; a second update of the same id gives
    the store and the row a single update with the second status would
    have given, from any earlier status to any of the three. *)
Theorem update_then_get_application (i : Z)
    (upd upd2 : schemas.ApplicationUpdateStatus.t) (u : User.t) (s s' : db.t)
    (a' : Application.t)
    (Hrun : main.update_application_status i upd u s = (s', inr a')) :
  Application.status a' =
    schemas.status_str (schemas.ApplicationUpdateStatus.status upd) /\
  main.get_application i u s' = (s', inr a') /\
  main.update_application_status i upd2 u s'
    = main.update_application_status i upd2 u s /\
  exists s'' a'', main.update_application_status i upd2 u s' = (s'', inr a'') /\
                  Application.status a'' =
                    schemas.status_str (schemas.ApplicationUpdateStatus.status upd2).
Proof.
  rewrite update_application_status_cases in Hrun.
  destruct (is_admin u) eqn:Hu; simpl in Hrun; [|discriminate].
  destruct (db.application_by_id i s) as [a|] eqn:Ha;
    [|destruct (db.int64 i); discriminate].
  cbv zeta in Hrun. injection Hrun as <- <-.
  assert (Hfind : forall st,
            db.application_by_id i
              (db.mk (db.users s)
                 (map (fun b => if Application.id b =? i
                                then Application.set_status st b else b)
                      (db.applications s)))
            = Some (Application.set_status st a)).
  { intros st. unfold db.application_by_id in *. simpl.
    rewrite find_map_status, Ha. reflexivity. }
  split; [reflexivity|]. split; [|split].
  - rewrite get_application_cases, Hfind, Hu. reflexivity.
  - rewrite !update_application_status_cases, Hu, Hfind, Ha. simpl.
    f_equal. f_equal. rewrite map_map. apply map_ext. intros b.
    destruct (Application.id b =? i) eqn:E; simpl; rewrite E; reflexivity.
  - rewrite update_application_status_cases, Hu, Hfind. simpl.
    eexists. eexists. split; reflexivity.
Qed.

Lemma update_then_get_application_witness :
  main.get_application 2 admin_row
    (db.mk (db.users sample_store)
       [app1; Application.set_status "approved" app2])
  = (db.mk (db.users sample_store) [app1; Application.set_status "approved" app2],
     inr (Application.set_status "approved" app2)).
Proof.
  apply (update_then_get_application 2
           (schemas.ApplicationUpdateStatus.mk schemas.approved)
           (schemas.ApplicationUpdateStatus.mk schemas.new)
           admin_row sample_store _ _ eq_refl).
Defined.

Lemma status_str_ok (st : schemas.StatusLiteral) : status_ok (schemas.status_str st).
Proof. destruct st; unfold status_ok; simpl; auto. Qed.

(** X7: the write handlers keep the application table well formed: if
    ids are pairwise distinct and every status is one of ["new"],
    ["approved"], ["rejected"] before a submission or a status update,
    both still hold after it, whether it succeeds or fails. *)
Theorem ledger_invariants_preserved (s : db.t)
    (Hids : application_ids_unique s) (Hst : statuses_ok s) :
  (forall now application u s' r,
     main.create_application now application u s = (s', r) ->
     application_ids_unique s' /\ statuses_ok s') /\
  (forall i upd u s' r,
     main.update_application_status i upd u s = (s', r) ->
     application_ids_unique s' /\ statuses_ok s').
Proof.
  split.
  - intros now application u s' r H.
    rewrite create_application_cases in H. cbv zeta in H. injection H as <- _.
    unfold application_ids_unique, statuses_ok in *. simpl. split.
    + rewrite map_app. simpl.
      apply List.NoDup_app;
        [exact Hids | apply List.NoDup_cons; [intros [] | constructor] |].
      intros x Hx [<-|[]].
      apply (proj2 (next_id_fresh (map Application.id (db.applications s)))) in Hx.
      lia.
    + intros a Ha. apply in_app_or in Ha. destruct Ha as [Ha|[<-|[]]]; [auto|].
      simpl. unfold status_ok. destruct (Decimal.gt _ _); auto.
  - intros i upd u s' r H.
    rewrite update_application_status_cases in H.
    destruct (negb (is_admin u)); [injection H as <- _; auto|].
    destruct (db.application_by_id i s);
      [|destruct (db.int64 i); injection H as <- _; auto].
    cbv zeta in H. injection H as <- _.
    unfold application_ids_unique, statuses_ok in *. simpl. split.
    + rewrite map_map.
      erewrite map_ext; [exact Hids|].
      intros b. simpl. destruct (Application.id b =? i); reflexivity.
    + intros a Ha. apply in_map_iff in Ha. destruct Ha as (b & <- & Hb).
      destruct (Application.id b =? i); [apply status_str_ok | auto].
Qed.

Lemma ledger_invariants_preserved_witness :
  application_ids_unique sample_store3 /\ statuses_ok sample_store3.
Proof.
  assert (Hids : application_ids_unique sample_store).
  { unfold application_ids_unique. simpl.
    repeat (apply List.NoDup_cons; [simpl; intuition discriminate|]).
    apply List.NoDup_nil. }
  assert (Hst : statuses_ok sample_store).
  { intros a [<-|[<-|[]]]; unfold status_ok; simpl; auto. }
  apply (proj1 (ledger_invariants_preserved sample_store Hids Hst)
           1200 app3_request alice_row sample_store3 (inr app3)).
  reflexivity.
Defined.



(** ** Startup, login and tokens *)

Lemma admin_count_zero (s : db.t) :
  db.user_by_username "admin" s = None <-> admin_count s = 0%nat.
Proof.
  unfold db.user_by_username, admin_count.
  induction (db.users s) as [|u l IH]; simpl; [tauto|].
  destruct (String.eqb (User.username u) "admin"); simpl; [|exact IH].
  split; discriminate.
Qed.

Lemma create_admin_user_cases (hash : string -> string) (s : db.t) :
  main.create_admin_user hash s =
    match db.user_by_username "admin" s with
    | Some _ => (s, inr tt)
    | None =>
        (db.mk (db.users s ++
                  [User.mk (db.next_id (map User.id (db.users s))) "admin"
                     (hash "admin123")])
               (db.applications s), inr tt)
    end.
Proof.
  unfold main.create_admin_user, auth.get_password_hash. run_handler.
  destruct (db.user_by_username "admin" s) eqn:E; [reflexivity|].
  rewrite E. reflexivity.
Qed.

(** X9: the startup hook makes sure there is an admin and is idempotent:
    it never raises; afterwards a row named ["admin"] exists; if one
    existed the store is untouched, otherwise exactly one row is appended,
    with the hash of the default password; applications are untouched; and
    running the hook again changes nothing. *)
Theorem create_admin_user_idempotent (hash : string -> string) (s : db.t) :
  exists s',
    main.create_admin_user hash s = (s', inr tt) /\
    (exists u, db.user_by_username "admin" s' = Some u) /\
    (forall u, db.user_by_username "admin" s = Some u -> s' = s) /\
    (db.user_by_username "admin" s = None ->
       exists u, db.users s' = (db.users s ++ [u])%list /\
                 User.username u = "admin" /\
                 User.hashed_password u = hash "admin123" /\
                 forall v, In v (db.users s) -> User.id v < User.id u) /\
    db.applications s' = db.applications s /\
    admin_count s' = Nat.max 1 (admin_count s) /\
    main.create_admin_user hash s' = (s', inr tt).
Proof.
  rewrite create_admin_user_cases.
  destruct (db.user_by_username "admin" s) as [u|] eqn:E.
  - exists s. split; [reflexivity|]. split; [eauto|]. split; [auto|].
    split; [discriminate|]. split; [reflexivity|]. split.
    + destruct (admin_count s) eqn:C; [|lia].
      apply admin_count_zero in C. congruence.
    + rewrite create_admin_user_cases, E. reflexivity.
  - eexists. split; [reflexivity|].
    set (row := User.mk _ _ _).
    assert (Hfind : db.user_by_username "admin"
                      (db.mk (db.users s ++ [row]) (db.applications s)) = Some row).
    { unfold db.user_by_username. simpl. apply find_snoc_fresh; [|reflexivity].
      intros y Hy. apply String.eqb_neq. intros Hn.
      apply user_by_username_None in E. apply E. apply in_map_iff. eauto. }
    split; [eauto|]. split; [discriminate|]. split.
    { intros _. exists row. simpl. repeat split.
      intros v Hv.
      apply (proj2 (next_id_fresh (map User.id (db.users s)))).
      now apply in_map. }
    split; [reflexivity|]. split.
    + apply admin_count_zero in E. unfold admin_count in *. simpl.
      rewrite List.filter_app, length_app, E. reflexivity.
    + rewrite create_admin_user_cases, Hfind. reflexivity.
Qed.

Lemma create_admin_user_idempotent_witness :
  exists s', main.create_admin_user sample_hash empty_store = (s', inr tt) /\
             db.users s' = [admin_row] /\
             main.create_admin_user sample_hash s' = (s', inr tt).
Proof.
  destruct (create_admin_user_idempotent sample_hash empty_store)
    as (s' & Hrun & _ & _ & _ & _ & _ & Hagain).
  exists s'. split; [exact Hrun|]. split; [|exact Hagain].
  vm_compute in Hrun. injection Hrun as <-. reflexivity.
Defined.

(** With a duration of 30 minutes the microseconds of the clock do not
    reach the token: it expires 1800 seconds after the second of issue. *)
Lemma create_access_token_half_hour (encode : auth.Claims -> string -> string)
    (now micro : Z) (data : auth.Claims) :
  0 <= micro < 1000000 ->
  auth.create_access_token encode (now * 1000000 + micro) data
    (Some (auth.timedelta_minutes 30))
  = encode (auth.mkClaims (auth.sub data) (Some (now + 1800))) auth.SECRET_KEY.
Proof.
  intros Hm. unfold auth.create_access_token.
  change (negb (auth.timedelta_minutes 30 =? 0)) with true. cbv iota zeta.
  do 3 f_equal. unfold auth.timegm, auth.timedelta_minutes.
  replace (now * 1000000 + micro + 30 * 60 * 1000000)
    with ((now + 1800) * 1000000 + micro) by lia.
  rewrite Z.div_add_l by lia. rewrite Z.div_small by lia. lia.
Qed.

Lemma login_cases (verify : string -> string -> bool)
    (encode : auth.Claims -> string -> string)
    (now : Z) (username password : string) (s : db.t) :
  main.login_for_access_token verify encode now username password s =
    match db.user_by_username username s with
    | None => (s, inl (HTTPException 401 bad_credentials))
    | Some u =>
        if verify password (User.hashed_password u)
        then (s, inr (<["access_token" :=
                         JStr (encode (auth.mkClaims (Some (User.username u))
                                         (Some (now + 1800)))
                                 auth.SECRET_KEY)]>
                       (<["token_type" := JStr "bearer"]> ∅)))
        else (s, inl (HTTPException 401 bad_credentials))
    end.
Proof.
  unfold main.login_for_access_token, auth.authenticate_user,
    auth.verify_password. run_handler.
  destruct (db.user_by_username username s) as [u|]; [|reflexivity].
  destruct (verify password (User.hashed_password u)); [|reflexivity].
  cbv beta iota zeta delta [negb].
  replace (now * 1000000) with (now * 1000000 + 0) by lia.
  rewrite create_access_token_half_hour by lia. reflexivity.
Qed.

(** The success case of login. *)
Lemma login_cases_ok (verify : string -> string -> bool)
    (encode : auth.Claims -> string -> string)
    (now : Z) (username password : string) (s : db.t) :
  forall u, db.user_by_username username s = Some u ->
    verify password (User.hashed_password u) = true ->
    exists body : gmap string JSON,
      main.login_for_access_token verify encode now username password s
        = (s, inr body) /\
      body !! "token_type" = Some (JStr "bearer") /\
      body !! "access_token" =
        Some (JStr (encode (auth.mkClaims (Some username) (Some (now + 30 * 60)))
                      auth.SECRET_KEY)).
Proof.
  rewrite login_cases. intros u E V. rewrite E, V.
  destruct (user_by_username_Some _ _ _ E) as [_ ->].
  eexists. split; [reflexivity|]. split.
  + rewrite lookup_insert_ne by discriminate. apply lookup_insert_eq.
  + apply lookup_insert_eq.
Qed.



(** X11: an issued token always carries an expiry set by the service,
    in whole seconds: the second of the clock plus the requested
    duration, and the clock plus 15 minutes when no duration or a zero
    duration is requested; the subject is the one given and an expiry
    present in the input claims is replaced.  A duration of a second or
    more expires strictly after the second of issue; a shorter positive
    one that does not reach the next second expires in the second of
    issue itself. *)
Theorem create_access_token_expiry (encode : auth.Claims -> string -> string)
    (utcnow : Z) (data : auth.Claims) (expires_delta : option Z) :
  exists expire,
    auth.create_access_token encode utcnow data expires_delta
      = encode (auth.mkClaims (auth.sub data) (Some (auth.timegm expire)))
          auth.SECRET_KEY /\
    (forall d, expires_delta = Some d -> d <> 0 -> expire = utcnow + d) /\
    (expires_delta = None \/ expires_delta = Some 0 ->
       expire = utcnow + auth.timedelta_minutes 15 /\
       auth.timegm expire = auth.timegm utcnow + 900) /\
    (forall d, expires_delta = Some d -> 1000000 <= d ->
       auth.timegm utcnow < auth.timegm expire) /\
    (forall d, expires_delta = Some d -> 0 < d ->
       utcnow mod 1000000 + d < 1000000 ->
       auth.timegm expire = auth.timegm utcnow).
Proof.
  assert (Hdefault : auth.timegm (utcnow + auth.timedelta_minutes 15)
                     = auth.timegm utcnow + 900).
  { unfold auth.timegm, auth.timedelta_minutes.
    replace (15 * 60 * 1000000) with (900 * 1000000) by lia.
    apply Z.div_add. lia. }
  assert (Hlong : forall d, 1000000 <= d ->
                    auth.timegm utcnow < auth.timegm (utcnow + d)).
  { intros d Hd. unfold auth.timegm.
    assert (utcnow / 1000000 + 1 <= (utcnow + d) / 1000000); [|lia].
    rewrite <- (Z.div_add utcnow 1 1000000) by lia.
    apply Z.div_le_mono; lia. }
  assert (Hshort : forall d, 0 < d -> utcnow mod 1000000 + d < 1000000 ->
                     auth.timegm (utcnow + d) = auth.timegm utcnow).
  { intros d Hd Hfit. unfold auth.timegm. symmetry.
    pose proof (Z.mod_pos_bound utcnow 1000000 ltac:(lia)) as Hm.
    apply (Z.div_unique _ _ _ (utcnow mod 1000000 + d)); [lia|].
    rewrite (Z.div_mod utcnow 1000000) at 1 by lia. lia. }
  unfold auth.create_access_token. cbv zeta.
  destruct expires_delta as [d|].
  - destruct (Z.eqb_spec d 0) as [->|Hd]; simpl negb; cbv iota.
    + eexists. split; [reflexivity|]. split; [|split; [|split]].
      * intros d [= <-] H. contradiction.
      * intros _. split; [reflexivity | exact Hdefault].
      * intros d [= <-] H. lia.
      * intros d [= <-] H. lia.
    + eexists. split; [reflexivity|]. split; [|split; [|split]].
      * intros d' [= <-] _. reflexivity.
      * intros [H|[= ->]]; [discriminate | contradiction].
      * intros d' [= <-]. apply Hlong.
      * intros d' [= <-]. apply Hshort.
  - eexists. split; [reflexivity|]. split; [|split; [|split]].
    + intros d H. discriminate.
    + intros _. split; [reflexivity | exact Hdefault].
    + intros d H. discriminate.
    + intros d H. discriminate.
Qed.

Lemma create_access_token_expiry_witness :
  (exists expire,
     auth.create_access_token sample_encode 1000500000
       (auth.mkClaims (Some "alice") (Some 5)) (Some 0)
       = sample_encode (auth.mkClaims (Some "alice") (Some (auth.timegm expire)))
           auth.SECRET_KEY /\
     auth.timegm expire = 1900) /\
  (exists expire,
     auth.create_access_token sample_encode 1000500000
       (auth.mkClaims (Some "alice") None) (Some 200000)
       = sample_encode (auth.mkClaims (Some "alice") (Some (auth.timegm expire)))
           auth.SECRET_KEY /\
     auth.timegm expire = 1000).
Proof.
  split.
  - destruct (create_access_token_expiry sample_encode 1000500000
                (auth.mkClaims (Some "alice") (Some 5)) (Some 0))
      as (expire & Henc & _ & Hdef & _).
    exists expire. split; [exact Henc|].
    destruct Hdef as [_ ->]; [right; reflexivity | reflexivity].
  - destruct (create_access_token_expiry sample_encode 1000500000
                (auth.mkClaims (Some "alice") None) (Some 200000))
      as (expire & Henc & _ & _ & _ & Hshort).
    exists expire. split; [exact Henc|].
    rewrite (Hshort 200000); [reflexivity | reflexivity | lia | vm_compute; reflexivity].
Defined.

(** X12: a registered user can log in: after a successful registration,
    a login with the same username and password on the resulting store
    answers a bearer token for that username, provided the password
    verifies against the hash made from it. *)
Theorem register_then_login (hash : string -> string)
    (verify : string -> string -> bool)
    (encode : auth.Claims -> string -> string) (now : Z)
    (user : schemas.UserCreate.t) (s s' : db.t) (row : User.t)
    (Hreg : main.register_user hash user s = (s', inr row))
    (Hverify : verify (schemas.UserCreate.password user)
                 (hash (schemas.UserCreate.password user)) = true) :
  exists body : gmap string JSON,
    main.login_for_access_token verify encode now
      (schemas.UserCreate.username user) (schemas.UserCreate.password user) s'
      = (s', inr body) /\
    body !! "token_type" = Some (JStr "bearer") /\
    body !! "access_token" =
      Some (JStr (encode (auth.mkClaims (Some (schemas.UserCreate.username user))
                            (Some (now + 30 * 60)))
                    auth.SECRET_KEY)).
Proof.
  rewrite register_user_cases in Hreg.
  destruct (String.eqb _ "admin"); [discriminate|].
  destruct (db.user_by_username _ s) eqn:E; [discriminate|].
  destruct (Py.contains "000"%char _); [discriminate|].
  cbv zeta in Hreg. injection Hreg as <- <-.
  set (row := User.mk _ _ _).
  apply (login_cases_ok verify encode now _ _ _ row).
  - unfold db.user_by_username. simpl. apply find_snoc_fresh.
    + intros y Hy. apply String.eqb_neq. intros Hn.
      apply user_by_username_None in E. apply E. apply in_map_iff. eauto.
    + apply String.eqb_refl.
  - exact Hverify.
Qed.

Lemma register_then_login_witness :
  exists body : gmap string JSON,
    main.login_for_access_token sample_verify sample_encode 0 "alice" "secret1"
      (db.mk [User.mk 1 "alice" (sample_hash "secret1")] [])
      = (db.mk [User.mk 1 "alice" (sample_hash "secret1")] [], inr body) /\
    body !! "token_type" = Some (JStr "bearer") /\
    body !! "access_token" = Some (JStr "alice.token").
Proof.
  apply (register_then_login sample_hash sample_verify sample_encode 0
           (schemas.UserCreate.mk "alice" "secret1") empty_store
           (db.mk [User.mk 1 "alice" (sample_hash "secret1")] [])
           (User.mk 1 "alice" (sample_hash "secret1"))).
  - reflexivity.
  - reflexivity.
Defined.

(** X13: the token of a login resolves to the user who logged in: if the
    token service decodes the issued token back to the claims that were
    encoded (it is presented before its expiry), identity resolution on
    the same store returns the row named at login, whose stored hash the
    login password verified against. *)
Theorem login_then_get_current_user (verify : string -> string -> bool)
    (encode : auth.Claims -> string -> string)
    (decode : string -> string -> Z -> auth.JWTError + auth.Claims)
    (now now' : Z) (username password : string) (s : db.t)
    (body : gmap string JSON)
    (Hlogin : main.login_for_access_token verify encode now username password s
                = (s, inr body))
    (Hdecode :
       let claims := auth.mkClaims (Some username) (Some (now + 30 * 60)) in
       decode (encode claims auth.SECRET_KEY) auth.SECRET_KEY now' = inr claims) :
  let token :=
    encode (auth.mkClaims (Some username) (Some (now + 30 * 60))) auth.SECRET_KEY in
  body !! "access_token" = Some (JStr token) /\
  exists u,
    auth.get_current_user decode now' token s = (s, inr u) /\
    In u (db.users s) /\
    User.username u = username /\
    verify password (User.hashed_password u) = true.
Proof.
  cbv zeta in *. rewrite login_cases in Hlogin.
  destruct (db.user_by_username username s) as [u|] eqn:E; [|discriminate].
  destruct (verify password (User.hashed_password u)) eqn:V; [|discriminate].
  destruct (user_by_username_Some _ _ _ E) as [Hin Hname].
  injection Hlogin as <-. rewrite Hname. split; [apply lookup_insert_eq|].
  exists u. unfold auth.get_current_user. rewrite Hdecode. simpl.
  run_handler. rewrite E. auto.
Qed.

Lemma login_then_get_current_user_witness :
  exists u,
    auth.get_current_user sample_decode 1000 "alice.token" sample_store
      = (sample_store, inr u) /\
    In u (db.users sample_store) /\
    User.username u = "alice" /\
    sample_verify "secret1" (User.hashed_password u) = true.
Proof.
  apply (login_then_get_current_user sample_verify sample_encode sample_decode
           0 1000 "alice" "secret1" sample_store
           (<["access_token" := JStr "alice.token"]>
              (<["token_type" := JStr "bearer"]> ∅))).
  - reflexivity.
  - reflexivity.
Defined.

(** ** The validators *)

Lemma str_chars (s : string) : Py.str (Py.chars s) = s.
Proof. apply string_of_list_ascii_of_string. Qed.

Lemma len_chars (s : string) : Py.len s = Z.of_nat (length (Py.chars s)).
Proof. rewrite <- (str_chars s) at 1. apply len_str. Qed.

Lemma forallb_filter_same {A} (p : A -> bool) (l : list A) :
  forallb p (List.filter p l) = true.
Proof.
  induction l as [|x l IH]; simpl; [reflexivity|].
  destruct (p x) eqn:E; simpl; [rewrite E|]; auto.
Qed.

(** X14: an accepted phone is stored in one shape: a ["+"] followed by
    the digit characters of the input, in order, 10 to 15 of them and
    nothing else, so 11 to 16 characters in all. *)
Theorem validate_phone_shape (v p : string)
    (Hv : schemas.validate_phone v = Valid p) :
  exists ds : list ascii,
    p = String "+" (Py.str ds) /\
    ds = digits_of v /\
    forallb Py.isdigit ds = true /\
    10 <= Z.of_nat (length ds) <= 15 /\
    11 <= Py.len p <= 16.
Proof.
  rewrite validate_phone_spec in Hv.
  destruct (Z.leb_spec 10 (digit_count v)); [|discriminate].
  destruct (Z.leb_spec (digit_count v) 15); [|discriminate].
  simpl in Hv. injection Hv as <-.
  exists (digits_of v). unfold digit_count in *.
  split; [reflexivity|]. split; [reflexivity|].
  split; [apply forallb_filter_same|]. split; [lia|].
  change ("+" +:+ ?s) with (String "+" s).
  unfold Py.len. simpl String.length. fold (Py.len (Py.str (digits_of v))).
  rewrite Nat2Z.inj_succ. fold (Py.len (Py.str (digits_of v))).
  rewrite len_str. lia.
Qed.

Lemma validate_phone_shape_witness :
  exists ds : list ascii,
    "+89991234567" = String "+" (Py.str ds) /\
    ds = digits_of "8 (999) 123-45-67" /\
    forallb Py.isdigit ds = true /\
    10 <= Z.of_nat (length ds) <= 15 /\
    11 <= Py.len "+89991234567" <= 16.
Proof.
  apply (validate_phone_shape "8 (999) 123-45-67" "+89991234567").
  reflexivity.
Defined.

Lemma lstrip_clean (l : list ascii) : starts_clean (Py.lstrip l).
Proof.
  induction l as [|c l IH]; simpl; [exact I|].
  destruct (Py.isspace c) eqn:E; [exact IH | exact E].
Qed.

Lemma lstrip_fixed (l : list ascii) : starts_clean l -> Py.lstrip l = l.
Proof. destruct l as [|c l]; simpl; [reflexivity|]. now intros ->. Qed.

Lemma lstrip_suffix (l : list ascii) :
  exists pre, l = (pre ++ Py.lstrip l)%list.
Proof.
  induction l as [|c l [pre IH]]; simpl; [now exists []|].
  destruct (Py.isspace c).
  - exists (c :: pre). simpl. now rewrite <- IH.
  - now exists [].
Qed.

Lemma lstrip_length (l : list ascii) : (length (Py.lstrip l) <= length l)%nat.
Proof.
  destruct (lstrip_suffix l) as [pre H]. rewrite H at 2.
  rewrite length_app. lia.
Qed.

Lemma lstrip_spaces (l : list ascii) :
  forallb Py.isspace l = true -> Py.lstrip l = [].
Proof.
  induction l as [|c l IH]; simpl; [reflexivity|].
  destruct (Py.isspace c); simpl; [exact IH | discriminate].
Qed.

Lemma strip_stripped (v : string) : Py.strip v = Py.str (stripped (Py.chars v)).
Proof. reflexivity. Qed.

Lemma stripped_clean (l : list ascii) :
  starts_clean (stripped l) /\ starts_clean (rev (stripped l)).
Proof.
  unfold stripped. set (t := Py.lstrip l). set (r := Py.lstrip (rev t)).
  split.
  - destruct (lstrip_suffix (rev t)) as [pre Hpre]. fold r in Hpre.
    assert (Ht : t = (rev r ++ rev pre)%list).
    { rewrite <- (rev_involutive t), Hpre. apply rev_app_distr. }
    pose proof (lstrip_clean l) as Hc. fold t in Hc.
    destruct (rev r) as [|c m]; [exact I|]. rewrite Ht in Hc. exact Hc.
  - rewrite rev_involutive. apply lstrip_clean.
Qed.

Lemma stripped_idempotent (l : list ascii) : stripped (stripped l) = stripped l.
Proof.
  destruct (stripped_clean l) as [H1 H2].
  unfold stripped at 1. rewrite (lstrip_fixed _ H1), (lstrip_fixed _ H2).
  apply rev_involutive.
Qed.

Lemma stripped_length (l : list ascii) : (length (stripped l) <= length l)%nat.
Proof.
  unfold stripped. rewrite length_rev.
  etransitivity; [apply lstrip_length|]. rewrite length_rev. apply lstrip_length.
Qed.

Lemma truthy_len (s : string) : Py.truthy s = (0 <? Py.len s).
Proof. destruct s; reflexivity. Qed.

Lemma validate_full_name_cases (v : string) :
  schemas.validate_full_name v =
    if 2 <=? Py.len (Py.strip v) then Valid (Py.strip v) else ValueError.
Proof.
  unfold schemas.validate_full_name. rewrite !truthy_len.
  assert (Hle : Py.len (Py.strip v) <= Py.len v).
  { rewrite strip_stripped, len_str, len_chars.
    apply inj_le, stripped_length. }
  destruct (Z.ltb_spec 0 (Py.len v)), (Z.ltb_spec 0 (Py.len (Py.strip v))),
    (Z.ltb_spec (Py.len (Py.strip v)) 2), (Z.leb_spec 2 (Py.len (Py.strip v)));
    simpl; try reflexivity; lia.
Qed.

Lemma validate_full_name_sound (v n : string) :
  schemas.validate_full_name v = Valid n ->
  n = Py.strip v /\ 2 <= Py.len n <= Py.len v.
Proof.
  rewrite validate_full_name_cases.
  destruct (Z.leb_spec 2 (Py.len (Py.strip v))) as [H|H]; [|discriminate].
  intros [= <-]. split; [reflexivity|]. split; [exact H|].
  rewrite strip_stripped, len_str, len_chars. apply inj_le, stripped_length.
Qed.

(** X15: a full name is accepted by its validator exactly when at least
    two characters remain after trimming; what is accepted is the trimmed
    text, which neither begins nor ends with whitespace, is no longer than
    the input, and validates to itself; a text of whitespace only is
    refused. *)
Theorem validate_full_name_trimmed (v : string) :
  (forall n, schemas.validate_full_name v = Valid n ->
     n = Py.strip v /\
     2 <= Py.len n <= Py.len v /\
     starts_clean (Py.chars n) /\
     starts_clean (rev (Py.chars n)) /\
     schemas.validate_full_name n = Valid n) /\
  (Py.len (Py.strip v) < 2 -> schemas.validate_full_name v = ValueError) /\
  (forallb Py.isspace (Py.chars v) = true ->
     schemas.validate_full_name v = ValueError).
Proof.
  rewrite validate_full_name_cases. split; [|split].
  - intros n. destruct (Z.leb_spec 2 (Py.len (Py.strip v))) as [H|H]; [|discriminate].
    intros [= <-]. split; [reflexivity|].
    rewrite strip_stripped in *. rewrite len_str in *.
    split; [split; [exact H|rewrite len_chars; apply inj_le, stripped_length]|].
    rewrite chars_str. destruct (stripped_clean (Py.chars v)) as [H1 H2].
    split; [exact H1|]. split; [exact H2|].
    rewrite validate_full_name_cases, strip_stripped, chars_str,
      stripped_idempotent, len_str.
    destruct (Z.leb_spec 2 (Z.of_nat (length (stripped (Py.chars v))))); [reflexivity|lia].
  - intros H. destruct (Z.leb_spec 2 (Py.len (Py.strip v))); [lia|reflexivity].
  - intros H. rewrite strip_stripped. unfold stripped.
    rewrite (lstrip_spaces _ H). reflexivity.
Qed.

Lemma validate_full_name_trimmed_witness :
  schemas.validate_full_name "  Ivan Ivanov " = Valid "Ivan Ivanov" /\
  schemas.validate_full_name "Ivan Ivanov" = Valid "Ivan Ivanov" /\
  schemas.validate_full_name " a " = ValueError /\
  schemas.validate_full_name "    " = ValueError.
Proof.
  destruct (proj1 (validate_full_name_trimmed "  Ivan Ivanov ") "Ivan Ivanov" eq_refl)
    as (_ & _ & _ & _ & Hidem).
  split; [reflexivity|]. split; [exact Hidem|]. split.
  - apply (proj1 (proj2 (validate_full_name_trimmed " a "))). vm_compute. reflexivity.
  - apply (proj2 (proj2 (validate_full_name_trimmed "    "))). reflexivity.
Defined.

(** X16: a registration body is accepted exactly when the username has 3
    to 50 characters and no space character and the password has at least
    6 characters; both are then taken as they are, and any other body is
    refused. *)
Theorem UserCreate_model_validate_iff (username password : string) :
  let ok := (3 <=? Py.len username) && (Py.len username <=? 50)
            && negb (Py.contains " " username) && (6 <=? Py.len password) in
  schemas.UserCreate.model_validate username password =
    (if ok then Valid (schemas.UserCreate.mk username password) else ValueError) /\
  (forall user, schemas.UserCreate.model_validate username password = Valid user ->
     schemas.UserCreate.username user = username /\
     schemas.UserCreate.password user = password /\
     3 <= Py.len username <= 50 /\ 6 <= Py.len password /\
     ~ In " "%char (Py.chars username)).
Proof.
  cbv zeta.
  assert (Hcases :
    schemas.UserCreate.model_validate username password =
      if (3 <=? Py.len username) && (Py.len username <=? 50)
         && negb (Py.contains " " username) && (6 <=? Py.len password)
      then Valid (schemas.UserCreate.mk username password) else ValueError).
  { unfold schemas.UserCreate.model_validate, schemas.bind, schemas.field,
      schemas.length_between, schemas.validate_username, schemas.validate_password.
    rewrite !truthy_len.
    destruct (Z.leb_spec 3 (Py.len username)), (Z.leb_spec (Py.len username) 50),
      (Z.ltb_spec 0 (Py.len username)); simpl; try reflexivity; try lia.
    destruct (Py.contains " " username); simpl; [reflexivity|].
    destruct (Z.leb_spec 6 (Py.len password)), (Z.ltb_spec 0 (Py.len password)),
      (Z.ltb_spec (Py.len password) 6); simpl; try reflexivity; lia. }
  split; [exact Hcases|].
  intros user. rewrite Hcases.
  destruct (Z.leb_spec 3 (Py.len username)); [|discriminate].
  destruct (Z.leb_spec (Py.len username) 50); [|discriminate].
  destruct (Py.contains " " username) eqn:C; [discriminate|].
  destruct (Z.leb_spec 6 (Py.len password)); [|discriminate].
  simpl. intros [= <-]. simpl. repeat split; try lia.
  intros Hin. unfold Py.contains in C.
  assert (existsb (Ascii.eqb " ") (Py.chars username) = true).
  { apply existsb_exists. exists " "%char. split; [exact Hin | apply Ascii.eqb_refl]. }
  congruence.
Qed.

Lemma UserCreate_model_validate_iff_witness :
  schemas.UserCreate.username (schemas.UserCreate.mk "alice" "secret1") = "alice" /\
  schemas.UserCreate.password (schemas.UserCreate.mk "alice" "secret1") = "secret1" /\
  3 <= Py.len "alice" <= 50 /\ 6 <= Py.len "secret1" /\
  ~ In " "%char (Py.chars "alice").
Proof.
  apply (proj2 (UserCreate_model_validate_iff "alice" "secret1")
           (schemas.UserCreate.mk "alice" "secret1")).
  reflexivity.
Defined.

Lemma Decimal_le_spec (a b : Decimal.t) :
  Decimal.le a b = true <-> (Decimal.value a <= Decimal.value b)%Q.
Proof.
  unfold Decimal.le, Decimal.compare, Qle, Qcompare.
  destruct (Z.compare_spec (Qnum (Decimal.value a) * QDen (Decimal.value b))
              (Qnum (Decimal.value b) * QDen (Decimal.value a)));
    split; intros; try reflexivity; try discriminate; lia.
Qed.

(** X17: an application body is accepted only with an amount above zero,
    which is kept as submitted; the accepted body carries the trimmed
    name, of 2 to 100 characters, and the normalized phone.  A zero or
    negative amount is refused whatever the name and phone. *)
Theorem ApplicationCreate_model_validate_sound
    (full_name : string) (amount : Decimal.t) (phone : string) :
  (forall application,
     schemas.ApplicationCreate.model_validate full_name amount phone
       = Valid application ->
     schemas.ApplicationCreate.amount application = amount /\
     (0 < Decimal.value amount)%Q /\
     schemas.ApplicationCreate.full_name application = Py.strip full_name /\
     2 <= Py.len (schemas.ApplicationCreate.full_name application) <= 100 /\
     schemas.validate_phone phone
       = Valid (schemas.ApplicationCreate.phone application)) /\
  ((Decimal.value amount <= 0)%Q ->
     schemas.ApplicationCreate.model_validate full_name amount phone = ValueError).
Proof.
  unfold schemas.ApplicationCreate.model_validate, schemas.bind, schemas.field,
    schemas.length_between, schemas.validate_amount.
  pose proof (Decimal_gt_spec amount (Decimal.of_Z 0)) as G.
  pose proof (Decimal_le_spec amount (Decimal.of_Z 0)) as L.
  rewrite Decimal_value_of_Z in G, L.
  split.
  - intros application.
    destruct (Z.leb_spec 2 (Py.len full_name)); [|discriminate].
    destruct (Z.leb_spec (Py.len full_name) 100); [|discriminate]. simpl.
    destruct (schemas.validate_full_name full_name) as [n|] eqn:N; [|discriminate].
    destruct (Decimal.gt amount (Decimal.of_Z 0)) eqn:Eg; [|discriminate].
    destruct (Decimal.le amount (Decimal.of_Z 0)); [discriminate|].
    destruct (schemas.validate_phone phone) as [p|]; [|discriminate].
    intros [= <-]. simpl.
    destruct (validate_full_name_sound full_name n N) as (-> & Hlen).
    split; [reflexivity|]. split; [now apply G|]. split; [reflexivity|].
    split; [lia | reflexivity].
  - intros Hle.
    destruct ((2 <=? Py.len full_name) && (Py.len full_name <=? 100)); [|reflexivity].
    destruct (schemas.validate_full_name full_name); [|reflexivity].
    destruct (Decimal.gt amount (Decimal.of_Z 0)) eqn:Eg; [|reflexivity].
    exfalso. assert (H : (0 < Decimal.value amount)%Q) by now apply G.
    apply (Qlt_irrefl 0). now apply Qlt_le_trans with (Decimal.value amount).
Qed.

Lemma ApplicationCreate_model_validate_sound_witness :
  (0 < Decimal.value (Decimal.mk 9999999 (-2)))%Q /\
  schemas.ApplicationCreate.model_validate "Ivan Ivanov" (Decimal.mk 0 0)
    "+79991234567" = ValueError /\
  schemas.ApplicationCreate.model_validate "Ivan Ivanov" (Decimal.mk (-5) 2)
    "+79991234567" = ValueError.
Proof.
  destruct (proj1 (ApplicationCreate_model_validate_sound
                     " Anna Smirnova " (Decimal.mk 9999999 (-2)) "+7 999 000-11-22")
              app3_request eq_refl) as (_ & Hpos & _).
  split; [exact Hpos|]. split.
  - apply (proj2 (ApplicationCreate_model_validate_sound
                    "Ivan Ivanov" (Decimal.mk 0 0) "+79991234567")).
    vm_compute. discriminate.
  - apply (proj2 (ApplicationCreate_model_validate_sound
                    "Ivan Ivanov" (Decimal.mk (-5) 2) "+79991234567")).
    vm_compute. discriminate.
Defined.

(** ** Status transitions *)

(** X18: there is no terminal status: in a table with distinct ids, the
    admin's update of the row with a given id succeeds from every current
    status to each of the three, also on a row already approved or
    rejected; the updated row is in the table afterwards and is what the
    admin reads back under that id.  On an id with no row the admin gets
    404 if the id fits a signed 64-bit integer and 500 if it does not, and
    nothing changes. *)
Theorem update_application_status_unrestricted (i : Z)
    (upd : schemas.ApplicationUpdateStatus.t) (u : User.t) (s : db.t)
    (Hadmin : User.username u = "admin") :
  (application_ids_unique s ->
   forall a, In a (db.applications s) -> Application.id a = i ->
     let updated :=
       Application.set_status
         (schemas.status_str (schemas.ApplicationUpdateStatus.status upd)) a in
     exists s',
       main.update_application_status i upd u s = (s', inr updated) /\
       In updated (db.applications s') /\
       main.get_application i u s' = (s', inr updated)) /\
  ((forall a, In a (db.applications s) -> Application.id a <> i) ->
     (db.int64 i = true ->
        main.update_application_status i upd u s
          = (s, inl (HTTPException 404 application_not_found))) /\
     (db.int64 i = false ->
        main.update_application_status i upd u s
          = (s, inl (HTTPException 500 internal_error)))).
Proof.
  apply is_admin_true in Hadmin.
  rewrite update_application_status_cases, Hadmin. simpl negb. cbv iota. split.
  - intros Hids a Hin Hid updated.
    pose proof (application_by_id_unique i s a Hids Hin Hid) as Ha.
    rewrite Ha. eexists. split; [reflexivity|]. split.
    + simpl. apply in_map_iff. exists a. split; [|exact Hin].
      apply Z.eqb_eq in Hid. rewrite Hid. reflexivity.
    + rewrite get_application_cases, Hadmin.
      unfold db.application_by_id in *. simpl. rewrite find_map_status, Ha.
      reflexivity.
  - intros H. apply application_by_id_None in H. rewrite H.
    split; intros ->; reflexivity.
Qed.

Lemma update_application_status_unrestricted_witness :
  (exists s',
     main.update_application_status 2
       (schemas.ApplicationUpdateStatus.mk schemas.new) admin_row sample_store
       = (s', inr (Application.set_status "new" app2)) /\
     In (Application.set_status "new" app2) (db.applications s') /\
     main.get_application 2 admin_row s'
       = (s', inr (Application.set_status "new" app2))) /\
  main.update_application_status 99
    (schemas.ApplicationUpdateStatus.mk schemas.new) admin_row sample_store
    = (sample_store, inl (HTTPException 404 application_not_found)) /\
  main.update_application_status (2 ^ 63)
    (schemas.ApplicationUpdateStatus.mk schemas.new) admin_row sample_store
    = (sample_store, inl (HTTPException 500 internal_error)).
Proof.
  split; [|split].
  - apply (proj1 (update_application_status_unrestricted 2
                    (schemas.ApplicationUpdateStatus.mk schemas.new)
                    admin_row sample_store eq_refl)
             sample_store_ids_unique app2).
    + right. left. reflexivity.
    + reflexivity.
  - apply (proj2 (update_application_status_unrestricted 99
                    (schemas.ApplicationUpdateStatus.mk schemas.new)
                    admin_row sample_store eq_refl)).
    + intros a [<-|[<-|[]]]; discriminate.
    + reflexivity.
  - apply (proj2 (update_application_status_unrestricted (2 ^ 63)
                    (schemas.ApplicationUpdateStatus.mk schemas.new)
                    admin_row sample_store eq_refl)).
    + intros a [<-|[<-|[]]]; discriminate.
    + reflexivity.
Defined.
